(** * Sestra SDK: the gateway client and the wallet helper

    A shallow embedding of [src/client.ts] (class [SestraClient]) and of
    [src/wallet.ts] (class [SestraWallet]), with the interfaces of
    [src/types.ts] they use, followed by the properties of the session
    contract, of the endpoint selection and of the wallet helper.

    Conventions of the embedding.
    - A TypeScript [number] that counts something (calls, lamports,
      milliseconds of the clock) is a [Z]: the integers on which JavaScript
      arithmetic is exact.  A fractional [number] is a [Q].  The timeout of
      [waitForConfirmation], which the code only compares with, is a
      [Number]: a rational, an infinity or NaN.
    - An optional property [p?: T] is an [option T]; [None] reads as
      [undefined].  Where the code tells an absent property from one that
      is there with the value [undefined] (an object spread does), the
      names of the latter are kept beside the values.
    - A plain object used as a dictionary (request headers) is a
      [gmap string string].
    - The [async] methods are run one at a time, to completion: a method is
      a function from the state before the call to its outcome (a returned
      value or a thrown exception) and the state after it.  What the outside
      world answers (the HTTP reply, the RPC reply, the clock) is an argument
      of the method, so that every property is stated for every answer. *)

From Stdlib Require Import QArith.QArith_base QArith.Qround.
From stdpp Require Import base strings gmap list pretty.

Set Warnings "-register-all".

Local Open Scope Z_scope.
Local Open Scope string_scope.

(** ** JavaScript values and control *)

Module Js.

(** ToBoolean, on the types the SDK tests with [!x], [x ? a : b],
    [x || y] and [x && y]. *)
Class Truthy (T : Type) := truthy : T -> bool.
Global Hint Mode Truthy ! : typeclass_instances.

Global Instance truthy_bool : Truthy bool := fun b => b.
Global Instance truthy_string : Truthy string :=
  fun s => match s with EmptyString => false | String _ _ => true end.
Global Instance truthy_number : Truthy Z := fun n => negb (n =? 0)%Z.
(** An array is an object: always truthy, also when empty. *)
Global Instance truthy_array {A} : Truthy (list A) := fun _ => true.
(** [undefined] and [null] are falsy. *)
Global Instance truthy_option {A} `{Truthy A} : Truthy (option A) :=
  fun o => match o with Some a => truthy a | None => false end.

(** [a || b], for an optional [a] and a [b] that is always there. *)
Definition or_else {A} `{Truthy A} (a : option A) (b : A) : A :=
  match a with
  | Some x => if truthy x then x else b
  | None => b
  end.

(** A value interpolated in a template literal: [`${x}`]. *)
Definition template (x : option string) : string := default "undefined" x.

(** [s.includes(search)]. *)
Fixpoint includes (s search : string) : bool :=
  String.prefix search s ||
  match s with
  | EmptyString => false
  | String _ rest => includes rest search
  end.

(** What a [throw] can carry, as far as a [catch] of the SDK tells values
    apart: [error instanceof Error ? error.message : fallback]. *)
Inductive Exn :=
| Error (message : string)
| NonError.

Definition message_or (fallback : string) (e : Exn) : string :=
  match e with
  | Error m => m
  | NonError => fallback
  end.

(** How a call completes. *)
Inductive Outcome (A : Type) :=
| Returns (v : A)
| Throws (e : Exn).
Global Arguments Returns {A} v.
Global Arguments Throws {A} e.

Definition returned {A} (o : Outcome A) : bool :=
  match o with Returns _ => true | Throws _ => false end.

(** A method body over a state [S]: state in, outcome and state out.  A
    [throw] keeps the state reached so far. *)
Definition M (S A : Type) : Type := S -> Outcome A * S.

Definition ret {S A} (v : A) : M S A := fun s => (Returns v, s).
Definition throw {S A} (e : Exn) : M S A := fun s => (Throws e, s).
Definition bind {S A B} (m : M S A) (k : A -> M S B) : M S B :=
  fun s =>
    match m s with
    | (Returns v, s') => k v s'
    | (Throws e, s') => (Throws e, s')
    end.
Definition get {S} : M S S := fun s => (Returns s, s).
Definition modify {S} (f : S -> S) : M S unit := fun s => (Returns tt, f s).
(** [try { body } catch (error) { handler }] *)
Definition try_catch {S A} (body : M S A) (handler : Exn -> M S A) : M S A :=
  fun s =>
    match body s with
    | (Returns v, s') => (Returns v, s')
    | (Throws e, s') => handler e s'
    end.

(** [new Date(s)] and [new Date()] carry a time value in milliseconds, or
    none (an Invalid Date, whose time value is NaN).  [a > b] between two
    dates compares the time values; a comparison with NaN is false. *)
Definition Date := option Z.
Definition Date_gt (a b : Date) : bool :=
  match a, b with
  | Some x, Some y => (y <? x)%Z
  | _, _ => false
  end.

End Js.

Export Js.

(** [let! x := await m in k] reads as [const x = await m; k]. *)
Notation "'let!' x ':=' m 'in' k" := (bind m (fun x => k))
  (at level 10, x name, m at level 200, k at level 200, only parsing).
Notation "'do!' m 'in' k" := (bind m (fun _ => k))
  (at level 10, m at level 200, k at level 200, only parsing).

(** ** [src/types.ts] *)

(** A JSON document, for request bodies: [BodyJSON v] below stands for the
    text [JSON.stringify(v)]. *)
Inductive JSON :=
| JNull
| JBool (b : bool)
| JNum (n : Z)
| JStr (s : string)
| JArr (items : list JSON)
| JObj (members : list (string * JSON)).

Module SestraConfig.
(** The values of the properties, and in [voids] the names of the own
    properties whose value is [undefined] (as in [{ baseUrl: undefined }]):
    an object spread copies such a property like any other.  A name in
    [voids] whose property has a value counts for nothing. *)
Record t := Build {
  sestraBaseUrl : option string;
  serviceBaseUrl : option string;
  baseUrl : option string;
  solanaRpcEndpoint : option string;
  sandbox : option bool;
  apiKey : option string;
  voids : list string;
}.
(** An object all of whose own properties have values. *)
Definition mk (sestraBaseUrl serviceBaseUrl baseUrl solanaRpcEndpoint : option string)
    (sandbox : option bool) (apiKey : option string) : t :=
  Build sestraBaseUrl serviceBaseUrl baseUrl solanaRpcEndpoint sandbox apiKey [].
(** [{}] *)
Definition empty : t := mk None None None None None None.
(** One property of [{ ...a, ...b }]: the value [b] has for it; else
    [undefined] when [b] has the property without a value; else what [a]
    has. *)
Definition spread_property {A} (name : string) (of_a of_b : option A) (b : t) : option A :=
  match of_b with
  | Some v => Some v
  | None => if bool_decide (name ∈ voids b) then None else of_a
  end.
(** [{ ...a, ...b }]: the own properties of [b] win. *)
Definition spread (a b : t) : t :=
  Build (spread_property "sestraBaseUrl" (sestraBaseUrl a) (sestraBaseUrl b) b)
        (spread_property "serviceBaseUrl" (serviceBaseUrl a) (serviceBaseUrl b) b)
        (spread_property "baseUrl" (baseUrl a) (baseUrl b) b)
        (spread_property "solanaRpcEndpoint" (solanaRpcEndpoint a) (solanaRpcEndpoint b) b)
        (spread_property "sandbox" (sandbox a) (sandbox b) b)
        (spread_property "apiKey" (apiKey a) (apiKey b) b)
        (voids a ++ voids b).
End SestraConfig.

Inductive PaymentStatus := pending | active | expired | revoked | cancelled.

Definition PaymentStatus_toString (s : PaymentStatus) : string :=
  match s with
  | pending => "pending"
  | active => "active"
  | expired => "expired"
  | revoked => "revoked"
  | cancelled => "cancelled"
  end.

Inductive Network := mainnet_beta | devnet.

Module PaymentDetails.
Record t := mk {
  network : Network;
  recipient_address : string;
  platform_address : string;
  amount_lamports : Z;
  amount_sol : Q;
  platform_fee_lamports : Z;
  developer_amount_lamports : Z;
  reference : string;
  expires_in_seconds : Z;
  program_id : string;
  use_smart_contract : bool;
}.
End PaymentDetails.

Module CreatePaymentRequest.
Record t := mk {
  policy_id : string;
  metadata : option (list (string * JSON));
}.
Definition toJSON (p : t) : JSON :=
  JObj (("policy_id", JStr (policy_id p)) ::
        match metadata p with
        | Some m => [("metadata", JObj m)]
        | None => []
        end).
End CreatePaymentRequest.

Module CreatePaymentResponse.
Record t := mk {
  success : bool;
  reference_id : string;
  status : PaymentStatus;
  payment_details : PaymentDetails.t;
  activation_endpoint : string;
}.
End CreatePaymentResponse.

Module VerifyPaymentResponse.
Record t := mk {
  success : bool;
  reference_id : string;
  status : PaymentStatus;
  token : string;
  expires_at : string;
  calls_remaining : Z;
}.
End VerifyPaymentResponse.

Module PaymentStatusResponse.
Record t := mk {
  reference_id : string;
  status : PaymentStatus;
  is_sandbox : option bool;
  amount_lamports : Z;
  amount_sol : Q;
  created_at : string;
  expires_at : string;
  activated_at : option string;
  calls_used : option Z;
  calls_remaining : option Z;
}.
End PaymentStatusResponse.

Module CancelPaymentResponse.
Record t := mk {
  success : bool;
  reference_id : string;
  status : PaymentStatus;
  is_sandbox : option bool;
  message : string;
}.
End CancelPaymentResponse.

Module SimulatePaymentRequest.
Record t := mk { success : option bool }.
Definition toJSON (o : t) : JSON :=
  JObj match success o with
       | Some b => [("success", JBool b)]
       | None => []
       end.
End SimulatePaymentRequest.

Module SimulatePaymentResponse.
Record t := mk {
  success : bool;
  reference_id : string;
  status : PaymentStatus;
  is_sandbox : bool;
  token : option string;
  expires_at : option string;
  calls_remaining : option Z;
  message : string;
}.
End SimulatePaymentResponse.

Module Session.
Record t := mk {
  token : string;
  reference_id : string;
  expires_at : string;
  calls_remaining : Z;
}.
End Session.

Module PaymentParams.
Record t := mk {
  recipientAddress : string;
  amountLamports : Z;
  memo : string;
}.
End PaymentParams.

Module PaymentResult.
Record t := mk {
  success : bool;
  txHash : option string;
  error : option string;
}.
End PaymentResult.

Module ApiResponse.
Record t (T : Type) := mk {
  data : option T;
  error : option string;
}.
Global Arguments mk {T} data error.
Global Arguments data {T} _.
Global Arguments error {T} _.
End ApiResponse.

Module ListPaymentsOptions.
Record t := mk {
  status : option PaymentStatus;
  limit : option Z;
  offset : option Z;
}.
(** [{}], the default argument of [listPayments]. *)
Definition empty : t := mk None None None.
End ListPaymentsOptions.

(** Objects are truthy. *)
Global Instance truthy_CreatePaymentResponse : Truthy CreatePaymentResponse.t := fun _ => true.
Global Instance truthy_VerifyPaymentResponse : Truthy VerifyPaymentResponse.t := fun _ => true.
Global Instance truthy_PaymentStatusResponse : Truthy PaymentStatusResponse.t := fun _ => true.
Global Instance truthy_CancelPaymentResponse : Truthy CancelPaymentResponse.t := fun _ => true.
Global Instance truthy_SimulatePaymentResponse : Truthy SimulatePaymentResponse.t := fun _ => true.
Global Instance truthy_PaymentStatus : Truthy PaymentStatus := fun s => truthy (PaymentStatus_toString s).

(** ** The host side of the gateway client: global [fetch] *)

Module RequestInit.
Inductive Body :=
| BodyText (s : string)
| BodyJSON (v : JSON).          (* JSON.stringify(v) *)
Record t := mk {
  method : option string;
  headers : option (gmap string string);
  body : option Body;
}.
(** [{}], the default argument of [request] and of the adapter. *)
Definition empty : t := mk None None None.
End RequestInit.

(** One call of global [fetch], as it leaves the SDK. *)
Record HttpCall := { url : string; init : RequestInit.t }.

(** The parsed body, typed [T & { error?: string; detail?: string }] by the
    adapter.  Of the body of a non-2xx response only [error] and [detail]
    are read. *)
Module Parsed.
Record t (T : Type) := mk {
  value : T;
  error : option string;
  detail : option string;
}.
Global Arguments mk {T} value error detail.
Global Arguments value {T} _.
Global Arguments error {T} _.
Global Arguments detail {T} _.
Definition plain {T} (v : T) : t T := mk v None None.
End Parsed.

(** What the network answers to one call: the promise of [fetch] rejects (a
    transport failure), or it resolves to a response with its [ok] flag,
    whose [json()] in turn rejects or resolves to [null] ([None]) or to a
    document. *)
Inductive FetchReply (T : Type) :=
| FetchRejects (e : Exn)
| FetchResolves (ok : bool) (json : Outcome (option (Parsed.t T))).
Arguments FetchRejects {T} e.
Arguments FetchResolves {T} ok json.

Record Response (T : Type) := {
  Response_ok : bool;
  Response_json : Outcome (option (Parsed.t T));
}.
Arguments Response_ok {T} _.
Arguments Response_json {T} _.

(** The message of the TypeError of reading a property of [null] (V8's
    wording). *)
Definition TypeError_null (property : string) : Exn :=
  Error ("Cannot read properties of null (reading '" +:+ property +:+ "')").

(** The serialisation of [URLSearchParams] (application/x-www-form-urlencoded),
    byte by byte: letters, digits and [* - . _] stay, a space becomes [+],
    every other byte becomes [%] and its two hexadecimal digits. *)
Definition form_unreserved (c : Ascii.ascii) : bool :=
  let n := Ascii.N_of_ascii c in
  ((48 <=? n) && (n <=? 57) || (65 <=? n) && (n <=? 90) || (97 <=? n) && (n <=? 122)
   || (n =? 42) || (n =? 45) || (n =? 46) || (n =? 95))%N.

Definition hex_digit (n : N) : Ascii.ascii :=
  Ascii.ascii_of_N (if (n <? 10)%N then 48 + n else 55 + n).

Definition form_urlencode_byte (c : Ascii.ascii) : string :=
  if form_unreserved c then String c ""
  else if (Ascii.N_of_ascii c =? 32)%N then "+"
  else String (Ascii.ascii_of_N 37) (String (hex_digit (Ascii.N_of_ascii c / 16))
                     (String (hex_digit (Ascii.N_of_ascii c mod 16)) "")).

Fixpoint form_urlencode (s : string) : string :=
  match s with
  | EmptyString => ""
  | String c rest => form_urlencode_byte c +:+ form_urlencode rest
  end.

(** ** [src/client.ts] *)

Definition DEFAULT_CONFIG : SestraConfig.t :=
  SestraConfig.mk None None (Some "https://api.sestralabs.xyz") None (Some false) None.

Module SestraClient.
(** The private fields of the class.  [currentSession] holds the session
    by value: that the caller of [setSession] keeps a reference to the same
    object is not modelled, and no property below depends on it. *)
Record t := mk {
  config : SestraConfig.t;
  sessionToken : option string;
  currentSession : option Session.t;
}.
End SestraClient.

(** The state a method of the client runs in: the instance, the wall clock
    in milliseconds, and the calls of global [fetch] made so far, oldest
    first. *)
Record World := {
  this : SestraClient.t;
  now : Z;
  sent : list HttpCall;
}.

Definition set_this (f : SestraClient.t -> SestraClient.t) (w : World) : World :=
  {| this := f (this w); now := now w; sent := sent w |}.

Definition set_now (t : Z) (w : World) : World :=
  {| this := this w; now := t; sent := sent w |}.

(** [await fetch(url, init)] *)
Definition global_fetch {T} (url : string) (init : RequestInit.t)
    (reply : FetchReply T) : M World (Response T) :=
  do! modify (fun w => {| this := this w; now := now w;
                          sent := sent w ++ [{| url := url; init := init |}] |}) in
  match reply with
  | FetchRejects e => throw e
  | FetchResolves ok json => ret {| Response_ok := ok; Response_json := json |}
  end.

(** [await response.json()] *)
Definition json {T} (response : Response T) : M World (option (Parsed.t T)) :=
  match Response_json response with
  | Returns d => ret d
  | Throws e => throw e
  end.

(** [new Date()] *)
Definition Date_new : M World Date := fun w => (Returns (Some (now w)), w).

Section Client.

(** [new Date(s)]: the time value of a date string, if it parses. *)
Variable Date_parse : string -> Date.

(** What [Number.prototype.toString] gives for a whole number beyond the
    safe integers: the shortest digits that identify the number, filled up
    with zeros below 10^21, and in exponent form such as [1e+21] from there
    on. *)
Variable Number_toString_large : Z -> string.

(** [new SestraClient(config)] *)
Definition new_SestraClient (config : SestraConfig.t) : SestraClient.t :=
  SestraClient.mk (SestraConfig.spread DEFAULT_CONFIG config) None None.

(** *** Session management *)

Definition setSession (session : Session.t) : M World unit :=
  modify (set_this (fun c =>
    SestraClient.mk (SestraClient.config c) (Some (Session.token session)) (Some session))).

Definition getSession : M World (option Session.t) :=
  let! w := get in ret (SestraClient.currentSession (this w)).

Definition clearSession : M World unit :=
  modify (set_this (fun c => SestraClient.mk (SestraClient.config c) None None)).

Definition hasActiveSession : M World bool :=
  let! w := get in
  match SestraClient.currentSession (this w) with
  | None => ret false
  | Some currentSession =>
      let expiresAt := Date_parse (Session.expires_at currentSession) in
      let! today := Date_new in
      ret (Date_gt expiresAt today && (0 <? Session.calls_remaining currentSession)%Z)
  end.

(** *** Internal *)

(** The private method [fetch<T>(endpoint, options)]. *)
Definition fetch {T} (endpoint : string) (options : RequestInit.t)
    (reply : FetchReply T) : M World (ApiResponse.t T) :=
  let! w := get in
  let url := template (SestraConfig.baseUrl (SestraClient.config (this w))) +:+ endpoint in
  try_catch
    (let! response :=
       global_fetch url
         (RequestInit.mk
            (RequestInit.method options)
            (Some (default ∅ (RequestInit.headers options)
                   ∪ {[ "Content-Type" := "application/json" ]}))
            (RequestInit.body options))
         reply in
     let! data := json response in
     if negb (Response_ok response) then
       match data with
       | None => throw (TypeError_null "error")
       | Some errorData =>
           ret (ApiResponse.mk None
                  (Some (or_else (Parsed.error errorData)
                           (or_else (Parsed.detail errorData) "Request failed"))))
       end
     else ret (ApiResponse.mk (Parsed.value <$> data) None))
    (fun error =>
       let message := message_or "Network error" error in
       ret (ApiResponse.mk None (Some message))).

(** [if (!response.data) throw new Error(response.error || fallback);]
    and then [response.data], which every public method but
    [listPayments] does with the adapter's result. *)
Definition data_or_throw {T} `{Truthy T} (response : ApiResponse.t T)
    (fallback : string) : M World T :=
  match ApiResponse.data response with
  | Some data =>
      if truthy data then ret data
      else throw (Error (or_else (ApiResponse.error response) fallback))
  | None => throw (Error (or_else (ApiResponse.error response) fallback))
  end.

(** *** Payment API *)

Definition createPayment (params : CreatePaymentRequest.t)
    (reply : FetchReply CreatePaymentResponse.t) : M World CreatePaymentResponse.t :=
  let! w := get in
  let endpoint :=
    if truthy (SestraConfig.sandbox (SestraClient.config (this w)))
    then "/api/v1/sandbox/payments"
    else "/api/v1/payments" in
  let! response :=
    fetch endpoint
      (RequestInit.mk (Some "POST") None
         (Some (RequestInit.BodyJSON (CreatePaymentRequest.toJSON params))))
      reply in
  data_or_throw response "Failed to create payment".

Definition getPaymentStatus (referenceId : string)
    (reply : FetchReply PaymentStatusResponse.t) : M World PaymentStatusResponse.t :=
  let! w := get in
  let endpoint :=
    if truthy (SestraConfig.sandbox (SestraClient.config (this w)))
    then "/api/v1/sandbox/payments/" +:+ referenceId
    else "/api/v1/payments/" +:+ referenceId in
  let! response := fetch endpoint RequestInit.empty reply in
  data_or_throw response "Payment not found".

Definition verifyPayment (referenceId txHash : string)
    (reply : FetchReply VerifyPaymentResponse.t) : M World VerifyPaymentResponse.t :=
  let! w := get in
  if truthy (SestraConfig.sandbox (SestraClient.config (this w))) then
    throw (Error "Use simulatePayment() for sandbox mode")
  else
    let! response :=
      fetch ("/api/v1/payments/" +:+ referenceId +:+ "/verify")
        (RequestInit.mk (Some "POST") None
           (Some (RequestInit.BodyJSON (JObj [("tx_hash", JStr txHash)]))))
        reply in
    let! data := data_or_throw response "Payment verification failed" in
    do! setSession
          (Session.mk (VerifyPaymentResponse.token data)
             (VerifyPaymentResponse.reference_id data)
             (VerifyPaymentResponse.expires_at data)
             (VerifyPaymentResponse.calls_remaining data)) in
    ret data.

Definition cancelPayment (referenceId : string)
    (reply : FetchReply CancelPaymentResponse.t) : M World CancelPaymentResponse.t :=
  let! w := get in
  let endpoint :=
    if truthy (SestraConfig.sandbox (SestraClient.config (this w)))
    then "/api/v1/sandbox/payments/" +:+ referenceId +:+ "/cancel"
    else "/api/v1/payments/" +:+ referenceId +:+ "/cancel" in
  let! response :=
    fetch endpoint (RequestInit.mk (Some "POST") None None) reply in
  data_or_throw response "Failed to cancel payment".

(** [URLSearchParams], with the two operations [listPayments] uses. *)
Definition URLSearchParams := list (string * string).

Fixpoint URLSearchParams_set (params : URLSearchParams) (name value : string)
    : URLSearchParams :=
  match params with
  | [] => [(name, value)]
  | (k, v) :: rest =>
      if String.eqb k name
      then (name, value) :: filter (fun kv => kv.1 ≠ name) rest
      else (k, v) :: URLSearchParams_set rest name value
  end.

(** [`${params}`]: the pairs as [name=value], names and values
    form-encoded, joined by [&]. *)
Fixpoint URLSearchParams_toString (params : URLSearchParams) : string :=
  match params with
  | [] => ""
  | [(k, v)] => form_urlencode k +:+ "=" +:+ form_urlencode v
  | (k, v) :: rest =>
      form_urlencode k +:+ "=" +:+ form_urlencode v +:+ "&" +:+ URLSearchParams_toString rest
  end.

(** [Number.MAX_SAFE_INTEGER] *)
Definition Number_MAX_SAFE_INTEGER : Z := 2 ^ 53 - 1.

(** [n.toString()] for a whole number: its decimal digits, with a minus
    sign for a negative one, within the safe integers. *)
Definition Number_toString (n : Z) : string :=
  if (Z.abs n <=? Number_MAX_SAFE_INTEGER)%Z then pretty n else Number_toString_large n.

Definition listPayments (options : ListPaymentsOptions.t)
    (reply : FetchReply (list PaymentStatusResponse.t))
    : M World (list PaymentStatusResponse.t) :=
  let params : URLSearchParams := [] in
  let params :=
    match ListPaymentsOptions.status options with
    | Some status =>
        if truthy status
        then URLSearchParams_set params "status" (PaymentStatus_toString status)
        else params
    | None => params
    end in
  let params :=
    match ListPaymentsOptions.limit options with
    | Some limit =>
        if truthy limit
        then URLSearchParams_set params "limit" (Number_toString limit)
        else params
    | None => params
    end in
  let params :=
    match ListPaymentsOptions.offset options with
    | Some offset =>
        if truthy offset
        then URLSearchParams_set params "offset" (Number_toString offset)
        else params
    | None => params
    end in
  let! w := get in
  let endpoint :=
    if truthy (SestraConfig.sandbox (SestraClient.config (this w)))
    then "/api/v1/sandbox/payments?" +:+ URLSearchParams_toString params
    else "/api/v1/payments?" +:+ URLSearchParams_toString params in
  let! response := fetch endpoint RequestInit.empty reply in
  ret (or_else (ApiResponse.data response) []).

(** *** Sandbox API *)

Definition simulatePayment (referenceId : string) (options : SimulatePaymentRequest.t)
    (reply : FetchReply SimulatePaymentResponse.t) : M World SimulatePaymentResponse.t :=
  let! w := get in
  if negb (truthy (SestraConfig.sandbox (SestraClient.config (this w)))) then
    throw (Error "simulatePayment() only works in sandbox mode. Set sandbox: true in config.")
  else
    let! response :=
      fetch ("/api/v1/sandbox/payments/" +:+ referenceId +:+ "/simulate")
        (RequestInit.mk (Some "POST") None
           (Some (RequestInit.BodyJSON (SimulatePaymentRequest.toJSON options))))
        reply in
    let! data := data_or_throw response "Payment simulation failed" in
    do! (match SimulatePaymentResponse.token data with
         | Some token =>
             if SimulatePaymentResponse.success data && truthy token then
               setSession
                 (Session.mk token
                    (SimulatePaymentResponse.reference_id data)
                    (or_else (SimulatePaymentResponse.expires_at data) "")
                    (or_else (SimulatePaymentResponse.calls_remaining data) 0))
             else ret tt
         | None => ret tt
         end) in
    ret data.

(** The default argument [options = { success: true }]. *)
Definition simulatePayment_default : SimulatePaymentRequest.t :=
  SimulatePaymentRequest.mk (Some true).

(** *** Protected API access *)

(** [this.currentSession.calls_remaining--] *)
Definition decrement (session : Session.t) : Session.t :=
  Session.mk (Session.token session) (Session.reference_id session)
    (Session.expires_at session) (Session.calls_remaining session - 1).

Definition request {T} `{Truthy T} (endpoint : string) (options : RequestInit.t)
    (reply : FetchReply T) : M World T :=
  let! w := get in
  match SestraClient.sessionToken (this w) with
  | Some sessionToken =>
      if negb (truthy sessionToken) then
        throw (Error "No active session. Call verifyPayment() or simulatePayment() first.")
      else
        let! live := hasActiveSession in
        if negb live then
          throw (Error "Session expired or no calls remaining.")
        else
          let! response :=
            fetch endpoint
              (RequestInit.mk
                 (RequestInit.method options)
                 (Some (<[ "X-Session-Token" := sessionToken ]>
                          (default ∅ (RequestInit.headers options))))
                 (RequestInit.body options))
              reply in
          let! data := data_or_throw response "Request failed" in
          do! modify (set_this (fun c =>
                SestraClient.mk (SestraClient.config c) (SestraClient.sessionToken c)
                  (decrement <$> SestraClient.currentSession c))) in
          ret data
  | None =>
      throw (Error "No active session. Call verifyPayment() or simulatePayment() first.")
  end.

End Client.

(** ** [src/wallet.ts] *)

Inductive TransactionConfirmationStatus := processed | confirmed | finalized.

(** The part of a signature status the wallet reads. *)
Record SignatureStatus := {
  confirmationStatus : option TransactionConfirmationStatus;
}.

(** A [number] used as a length of time: a finite value, an infinity or
    NaN.  [x < timeout] for a whole [x] is false against NaN. *)
Inductive Number :=
| Finite (q : Q)
| Infinity
| MinusInfinity
| NaN.

Definition below (x : Z) (timeout : Number) : bool :=
  match timeout with
  | Finite q => negb (Qle_bool q (inject_Z x))
  | Infinity => true
  | MinusInfinity | NaN => false
  end.

(** A whole number of milliseconds. *)
Definition milliseconds (ms : Z) : Number := Finite (inject_Z ms).
Coercion milliseconds : Z >-> Number.

(** The amounts [SystemProgram.transfer] can encode: unsigned 64-bit. *)
Definition u64 (lamports : Z) : bool := (0 <=? lamports)%Z && (lamports <? 2 ^ 64)%Z.

Section Wallet.

(** The two classes of @solana/web3.js the wallet takes from its caller,
    and what the library throws where it rejects its input:
    [new PublicKey(address)] returns the key or throws;
    [new Connection(endpoint, commitment)] returns or throws;
    [SystemProgram.transfer] throws for an amount of lamports that is not
    an unsigned 64-bit number. *)
Variables PublicKey Keypair : Type.
Variable PublicKey_new : string -> Outcome PublicKey.
Variable publicKey : Keypair -> PublicKey.
Variable Connection_new : string -> Outcome unit.
Variable transfer_RangeError : Z -> Exn.

(** The instructions the wallet builds: a transfer of a whole number of
    lamports, and a memo. *)
Inductive TransactionInstruction :=
| Transfer (fromPubkey toPubkey : PublicKey) (lamports : Z)
| Memo (memo : string) (signerPubkeys : list PublicKey).

(** [SystemProgram.transfer({fromPubkey, toPubkey, lamports})] *)
Definition SystemProgram_transfer (fromPubkey toPubkey : PublicKey) (lamports : Z)
    : Outcome TransactionInstruction :=
  if u64 lamports then Returns (Transfer fromPubkey toPubkey lamports)
  else Throws (transfer_RangeError lamports).

(** [createMemoInstruction(memo, signerPubkeys)] *)
Definition createMemoInstruction (memo : string) (signerPubkeys : list PublicKey)
    : TransactionInstruction :=
  Memo memo signerPubkeys.

Record Transaction := {
  instructions : list TransactionInstruction;
  recentBlockhash : option string;
  feePayer : option PublicKey;
}.

(** [new Transaction()] *)
Definition Transaction_new : Transaction :=
  {| instructions := []; recentBlockhash := None; feePayer := None |}.

(** [transaction.add(instruction)] *)
Definition Transaction_add (transaction : Transaction)
    (instruction : TransactionInstruction) : Transaction :=
  {| instructions := instructions transaction ++ [instruction];
     recentBlockhash := recentBlockhash transaction;
     feePayer := feePayer transaction |}.

(** A call the wallet makes on its connection, or on the library with its
    connection, with the arguments as the wallet passes them. *)
Inductive RpcCall :=
| getLatestBlockhash
| sendAndConfirmTransaction (transaction : Transaction) (signers : list Keypair)
| getSignatureStatus (signature : string).

Record SestraWallet := {
  connection : string;          (* the RPC endpoint of the Connection *)
  network : Network;
}.

(** [new SestraWallet(rpcEndpoint)]: the connection is built first. *)
Definition new_SestraWallet (rpcEndpoint : string) : Outcome SestraWallet :=
  match Connection_new rpcEndpoint with
  | Returns _ =>
      Returns {| connection := rpcEndpoint;
                 network := if includes rpcEndpoint "devnet" then devnet else mainnet_beta |}
  | Throws e => Throws e
  end.

Definition SestraWallet_default_rpcEndpoint : string :=
  "https://api.mainnet-beta.solana.com".

Definition getNetwork (self : SestraWallet) : string :=
  match network self with
  | devnet => "devnet"
  | mainnet_beta => "mainnet-beta"
  end.

(** The state a method of the wallet runs in: the wall clock in
    milliseconds and the queries sent so far (endpoint and query), oldest
    first. *)
Record Chain := {
  time : Z;
  queries : list (string * RpcCall);
}.

(** One query through the connection: it is sent, and resolves or rejects
    as the chain decides. *)
Definition rpc {A} (self : SestraWallet) (query : RpcCall) (reply : Outcome A)
    : M Chain A :=
  do! modify (fun c => {| time := time c;
                          queries := queries c ++ [(connection self, query)] |}) in
  match reply with
  | Returns v => ret v
  | Throws e => throw e
  end.

(** Time passing while the method is suspended at an [await]. *)
Definition elapse (ms : Z) : M Chain unit :=
  modify (fun c => {| time := time c + ms; queries := queries c |}).

(** A library call that returns or throws without touching the chain. *)
Definition call {A} (result : Outcome A) : M Chain A :=
  match result with
  | Returns v => ret v
  | Throws e => throw e
  end.

(** [Date.now()] *)
Definition Date_now : M Chain Z := fun c => (Returns (time c), c).

(** [await new Promise(resolve => setTimeout(resolve, ms))]: the timer
    fires after [ms] milliseconds, or [late] milliseconds later. *)
Definition sleep (ms : Z) (late : N) : M Chain unit :=
  elapse (ms + Z.of_N late).

Definition createPaymentTransaction (self : SestraWallet) (payerPublicKey : PublicKey)
    (params : PaymentParams.t) (latest : Outcome string) : M Chain Transaction :=
  let recipientAddress := PaymentParams.recipientAddress params in
  let amountLamports := PaymentParams.amountLamports params in
  let memo := PaymentParams.memo params in
  let transaction := Transaction_new in
  let! toPubkey := call (PublicKey_new recipientAddress) in
  let! transfer := call (SystemProgram_transfer payerPublicKey toPubkey amountLamports) in
  let transaction := Transaction_add transaction transfer in
  let transaction :=
    Transaction_add transaction (createMemoInstruction memo [payerPublicKey]) in
  let! blockhash := rpc self getLatestBlockhash latest in
  ret {| instructions := instructions transaction;
         recentBlockhash := Some blockhash;
         feePayer := Some payerPublicKey |}.

Definition createPaymentFromDetails (self : SestraWallet) (payerPublicKey : PublicKey)
    (paymentDetails : PaymentDetails.t) (latest : Outcome string) : M Chain Transaction :=
  createPaymentTransaction self payerPublicKey
    (PaymentParams.mk (PaymentDetails.recipient_address paymentDetails)
       (PaymentDetails.amount_lamports paymentDetails)
       (PaymentDetails.reference paymentDetails))
    latest.

(** [latest] and [submitted] are what the chain answers to the blockhash
    query and to the signed transaction. *)
Definition sendPayment (self : SestraWallet) (keypair : Keypair)
    (params : PaymentParams.t) (latest submitted : Outcome string)
    : M Chain PaymentResult.t :=
  try_catch
    (let! transaction :=
       createPaymentTransaction self (publicKey keypair) params latest in
     let! txHash :=
       rpc self (sendAndConfirmTransaction transaction [keypair]) submitted in
     ret (PaymentResult.mk true (Some txHash) None))
    (fun error =>
       let message := message_or "Payment failed" error in
       ret (PaymentResult.mk false None (Some message))).

Definition sendPaymentFromDetails (self : SestraWallet) (keypair : Keypair)
    (paymentDetails : PaymentDetails.t) (latest submitted : Outcome string)
    : M Chain PaymentResult.t :=
  sendPayment self keypair
    (PaymentParams.mk (PaymentDetails.recipient_address paymentDetails)
       (PaymentDetails.amount_lamports paymentDetails)
       (PaymentDetails.reference paymentDetails))
    latest submitted.

(** [status.value?.confirmationStatus === 'finalized' ||
     status.value?.confirmationStatus === 'confirmed'] *)
Definition is_confirmed (value : option SignatureStatus) : bool :=
  match value with
  | Some status =>
      match confirmationStatus status with
      | Some finalized | Some confirmed => true
      | Some processed | None => false
      end
  | None => false
  end.

(** What the outside does during one round of the polling loop: how long
    the status query takes and what it answers, and how late the
    one-second timer fires.  The durations are naturals: every query
    completes, and the clock does not run backwards. *)
Record Round := {
  latency : N;
  answer : Outcome (option SignatureStatus);
  late : N;
}.

(** The [while] loop of [waitForConfirmation], unrolled at most [fuel]
    times; [None] when the loop is still running after that. *)
Fixpoint waitForConfirmation_loop (fuel : nat) (self : SestraWallet) (txHash : string)
    (start : Z) (timeout : Number) (rounds : nat -> Round) (i : nat)
    : M Chain (option bool) :=
  match fuel with
  | O => ret None
  | S fuel =>
      let! t := Date_now in
      if below (t - start) timeout then
        do! elapse (Z.of_N (latency (rounds i))) in
        let! status := rpc self (getSignatureStatus txHash) (answer (rounds i)) in
        if is_confirmed status then ret (Some true)
        else
          do! sleep 1000 (late (rounds i)) in
          waitForConfirmation_loop fuel self txHash start timeout rounds (S i)
      else ret (Some false)
  end.

Definition waitForConfirmation (fuel : nat) (self : SestraWallet) (txHash : string)
    (timeout : Number) (rounds : nat -> Round) : M Chain (option bool) :=
  let! start := Date_now in
  waitForConfirmation_loop fuel self txHash start timeout rounds 0.

(** The default argument [timeout = 30000]. *)
Definition waitForConfirmation_default_timeout : Number := milliseconds 30000.

Definition isTransactionConfirmed (self : SestraWallet) (txHash : string)
    (round : Round) : M Chain bool :=
  try_catch
    (do! elapse (Z.of_N (latency round)) in
     let! status := rpc self (getSignatureStatus txHash) (answer round) in
     ret (is_confirmed status))
    (fun _ => ret false).

End Wallet.

Arguments Transaction PublicKey : clear implicits.
Arguments Transfer {PublicKey} fromPubkey toPubkey lamports.
Arguments Memo {PublicKey} memo signerPubkeys.
Arguments SystemProgram_transfer {PublicKey} transfer_RangeError fromPubkey toPubkey lamports.
Arguments createMemoInstruction {PublicKey} memo signerPubkeys.
Arguments instructions {PublicKey} _.
Arguments recentBlockhash {PublicKey} _.
Arguments feePayer {PublicKey} _.
Arguments getLatestBlockhash {PublicKey Keypair}.
Arguments sendAndConfirmTransaction {PublicKey Keypair} transaction signers.
Arguments getSignatureStatus {PublicKey Keypair} signature.
Arguments Chain PublicKey Keypair : clear implicits.
Arguments time {PublicKey Keypair} _.
Arguments queries {PublicKey Keypair} _.
Arguments createPaymentTransaction {PublicKey Keypair} PublicKey_new transfer_RangeError self payerPublicKey params latest.
Arguments createPaymentFromDetails {PublicKey Keypair} PublicKey_new transfer_RangeError self payerPublicKey paymentDetails latest.
Arguments sendPayment {PublicKey Keypair} PublicKey_new publicKey transfer_RangeError self keypair params latest submitted.
Arguments sendPaymentFromDetails {PublicKey Keypair} PublicKey_new publicKey transfer_RangeError self keypair paymentDetails latest submitted.
Arguments waitForConfirmation_loop {PublicKey Keypair} fuel self txHash start timeout rounds i.
Arguments waitForConfirmation {PublicKey Keypair} fuel self txHash timeout rounds.
Arguments isTransactionConfirmed {PublicKey Keypair} self txHash round.

(** ** Vocabulary of the properties *)

(** The client's configuration selects the sandbox endpoint family. *)
Definition sandboxed (w : World) : bool :=
  truthy (SestraConfig.sandbox (SestraClient.config (this w))).

(** The expiry of a session is strictly after the instant [t]: its date
    string parses, to a time value above [t]. *)
Definition expires_after (Date_parse : string -> Date) (t : Z) (session : Session.t) : Prop :=
  exists expiry, Date_parse (Session.expires_at session) = Some expiry /\ t < expiry.

(** The world after one more call of global [fetch]. *)
Definition record (call : HttpCall) (w : World) : World :=
  {| this := this w; now := now w; sent := sent w ++ [call] |}.

(** The call the adapter makes for an endpoint and its options. *)
Definition adapter_call (w : World) (endpoint : string) (options : RequestInit.t) : HttpCall :=
  {| url := template (SestraConfig.baseUrl (SestraClient.config (this w))) +:+ endpoint;
     init := RequestInit.mk (RequestInit.method options)
               (Some (default ∅ (RequestInit.headers options)
                      ∪ {[ "Content-Type" := "application/json" ]}))
               (RequestInit.body options) |}.

(** What the adapter makes of each reply. *)
Definition adapter_result {T} (reply : FetchReply T) : ApiResponse.t T :=
  match reply with
  | FetchRejects e => ApiResponse.mk None (Some (message_or "Network error" e))
  | FetchResolves _ (Throws e) => ApiResponse.mk None (Some (message_or "Network error" e))
  | FetchResolves ok (Returns document) =>
      if ok then ApiResponse.mk (Parsed.value <$> document) None
      else
        match document with
        | None =>
            ApiResponse.mk None (Some (message_or "Network error" (TypeError_null "error")))
        | Some errorData =>
            ApiResponse.mk None
              (Some (or_else (Parsed.error errorData)
                       (or_else (Parsed.detail errorData) "Request failed")))
        end
  end.

(** The document of a reply that the public methods accept as data: the
    response is 2xx and its body is a truthy document. *)
Definition accepted {T} `{Truthy T} (reply : FetchReply T) : option T :=
  match reply with
  | FetchResolves true (Returns (Some document)) =>
      if truthy (Parsed.value document) then Some (Parsed.value document) else None
  | _ => None
  end.

(** One call of [request] in a sequence: the instant it is made at, its
    arguments and what the network answers. *)
Record Call := {
  Call_T : Type;
  Call_Truthy : Truthy Call_T;
  Call_at : Z;
  Call_endpoint : string;
  Call_options : RequestInit.t;
  Call_reply : FetchReply Call_T;
}.

(** A sequence of calls of [request] on one client; the result counts the
    calls that returned. *)
Fixpoint requests (Date_parse : string -> Date) (calls : list Call) (w : World)
    : nat * World :=
  match calls with
  | [] => (0%nat, w)
  | c :: rest =>
      let '(o, w1) :=
        @request Date_parse (Call_T c) (Call_Truthy c) (Call_endpoint c)
          (Call_options c) (Call_reply c) (set_now (Call_at c) w) in
      let '(k, w2) := requests Date_parse rest w1 in
      ((if returned o then 1 else 0) + k, w2)%nat
  end.

(** A stand-in for the date parser in the examples: three ISO dates and
    their time values; every other string is an Invalid Date. *)
Definition Date_parse_example (s : string) : Date :=
  if String.eqb s "2030-01-01T00:00:00.000Z" then Some 1893456000000
  else if String.eqb s "2026-01-01T00:00:00.000Z" then Some 1767225600000
  else if String.eqb s "2020-01-01T00:00:00.000Z" then Some 1577836800000
  else None.

(** A client as the unit tests build it, on 1 January 2026. *)
Definition world_example (config : SestraConfig.t) : World :=
  {| this := new_SestraClient config; now := 1767225600000; sent := [] |}.

Definition session_example : Session.t :=
  Session.mk "test-token" "ref-123" "2030-01-01T00:00:00.000Z" 100.

(** The client of the unit test "should use serviceBaseUrl when
    configured", once its session is set. *)
Definition service_config_example : SestraConfig.t :=
  SestraConfig.mk (Some "https://api.sestra.com") (Some "https://api.myservice.com")
    None None None None.

Definition service_world_example : World :=
  (setSession session_example (world_example service_config_example)).2.

Definition service_reply_example : FetchReply string :=
  FetchResolves true (Returns (Some (Parsed.plain "service response"))).

(** A client whose session has two calls left, and three calls of
    [request], the second of which meets a transport failure. *)
Definition two_calls_session_example : Session.t :=
  Session.mk "test-token" "ref-123" "2030-01-01T00:00:00.000Z" 2.

Definition two_calls_world_example : World :=
  (setSession two_calls_session_example (world_example SestraConfig.empty)).2.

Definition protected_reply_example : FetchReply string :=
  FetchResolves true (Returns (Some (Parsed.plain "protected content"))).

Definition calls_example : list Call :=
  [ Build_Call string _ 1767225601000 "/api/test" RequestInit.empty protected_reply_example;
    Build_Call string _ 1767225602000 "/api/test" RequestInit.empty (FetchRejects NonError);
    Build_Call string _ 1767225603000 "/api/test" RequestInit.empty protected_reply_example ].

(** A sandbox client with a session, and the response of the unit test
    "should handle failed simulation". *)
Definition sandbox_world_example : World :=
  (setSession session_example
     (world_example (SestraConfig.mk None None None None (Some true) None))).2.

Definition failed_simulation_example : SimulatePaymentResponse.t :=
  SimulatePaymentResponse.mk false "ref-123" pending true None None None
    "Simulated payment failure".

(** The session is live in a world: what [hasActiveSession] returns. *)
Definition live (Date_parse : string -> Date) (w : World) : bool :=
  match SestraClient.currentSession (this w) with
  | Some session =>
      Date_gt (Date_parse (Session.expires_at session)) (Some (now w))
      && (0 <? Session.calls_remaining session)%Z
  | None => false
  end.

(** The options [request] hands to the adapter. *)
Definition with_session_token (sessionToken : string) (options : RequestInit.t)
    : RequestInit.t :=
  RequestInit.mk (RequestInit.method options)
    (Some (<[ "X-Session-Token" := sessionToken ]> (default ∅ (RequestInit.headers options))))
    (RequestInit.body options).

(** The client after one call has been taken off its session. *)
Definition consume (c : SestraClient.t) : SestraClient.t :=
  SestraClient.mk (SestraClient.config c) (SestraClient.sessionToken c)
    (decrement <$> SestraClient.currentSession c).

(** The session a simulation response grants: the response indicates
    success and includes a token that is not empty. *)
Definition granted (data : SimulatePaymentResponse.t) : option Session.t :=
  match SimulatePaymentResponse.token data with
  | Some token =>
      if SimulatePaymentResponse.success data && truthy token then
        Some (Session.mk token
                (SimulatePaymentResponse.reference_id data)
                (or_else (SimulatePaymentResponse.expires_at data) "")
                (or_else (SimulatePaymentResponse.calls_remaining data) 0))
      else None
  | None => None
  end.

(** The call [simulatePayment] sends. *)
Definition simulate_call (w : World) (referenceId : string)
    (options : SimulatePaymentRequest.t) : HttpCall :=
  adapter_call w ("/api/v1/sandbox/payments/" +:+ referenceId +:+ "/simulate")
    (RequestInit.mk (Some "POST") None
       (Some (RequestInit.BodyJSON (SimulatePaymentRequest.toJSON options)))).

(** ** Vocabulary of the wallet's properties *)

(** A stand-in for the key decoder of the library in the examples: a key is
    its base58 text, of 32 to 44 characters. *)
Definition base58 : string := "123456789ABCDEFGHJKLMNPQRSTUVWXYZabcdefghijkmnopqrstuvwxyz".

Definition PublicKey_example (address : string) : Outcome string :=
  if negb (forallb (fun c => includes base58 (String c "")) (String.list_ascii_of_string address))
  then Throws (Error "Non-base58 character")
  else if (32 <=? String.length address)%nat && (String.length address <=? 44)%nat
  then Returns address
  else Throws (Error "Invalid public key input").

(** A stand-in for the endpoint check of [new Connection] in the examples. *)
Definition Connection_example (endpoint : string) : Outcome unit :=
  if String.prefix "http:" endpoint || String.prefix "https:" endpoint
  then Returns tt
  else Throws (Error "Endpoint URL must start with `http:` or `https:`.").

(** A stand-in for what [SystemProgram.transfer] throws in the examples. *)
Definition transfer_RangeError_example (lamports : Z) : Exn :=
  Error ("The value of lamports is out of range. Received " +:+ pretty lamports).

(** The wallet [new SestraWallet()] builds. *)
Definition wallet_example : SestraWallet :=
  {| connection := SestraWallet_default_rpcEndpoint; network := mainnet_beta |}.

Definition chain_example : Chain string string := {| time := 1767225600000; queries := [] |}.

Definition params_example : PaymentParams.t :=
  PaymentParams.mk "11111111111111111111111111111111" 1000000000 "payment-ref-123".

(** The same payment, of -1 lamports. *)
Definition negative_params_example : PaymentParams.t :=
  PaymentParams.mk "11111111111111111111111111111111" (-1) "payment-ref-123".

(** The time from the start of [waitForConfirmation] to the start of round
    [k]: each earlier round took its query and its sleep. *)
Fixpoint elapsed (rounds : nat -> Round) (k : nat) : Z :=
  match k with
  | O => 0
  | S i => elapsed rounds i + Z.of_N (latency (rounds i)) + (1000 + Z.of_N (late (rounds i)))
  end.

(** What a status query resolved with reports the transaction as
    "confirmed" or "finalized". *)
Definition reports_confirmation (value : option SignatureStatus) : Prop :=
  exists status,
    value = Some status
    /\ (confirmationStatus status = Some confirmed
        \/ confirmationStatus status = Some finalized).

(** The query of a round resolved, with a status that is neither confirmed
    nor finalized, or with none. *)
Definition unconfirmed (round : Round) : Prop :=
  exists value, answer round = Returns value /\ ~ reports_confirmation value.

(** The loop goes through round [k] to the next one. *)
Definition goes_on (rounds : nat -> Round) (timeout : Number) (k : nat) : Prop :=
  below (elapsed rounds k) timeout = true /\ unconfirmed (rounds k).

(** How the loop ends at round [k]: with which outcome, how long after the
    start, and after how many queries. *)
Inductive Ending (rounds : nat -> Round) (timeout : Number) (k : nat)
    : Outcome (option bool) -> Z -> nat -> Prop :=
| timed_out :
    below (elapsed rounds k) timeout = false ->
    Ending rounds timeout k (Returns (Some false)) (elapsed rounds k) k
| status_seen value :
    below (elapsed rounds k) timeout = true ->
    answer (rounds k) = Returns value ->
    reports_confirmation value ->
    Ending rounds timeout k (Returns (Some true))
      (elapsed rounds k + Z.of_N (latency (rounds k))) (S k)
| poll_failed e :
    below (elapsed rounds k) timeout = true ->
    answer (rounds k) = Throws e ->
    Ending rounds timeout k (Throws e)
      (elapsed rounds k + Z.of_N (latency (rounds k))) (S k).

(** Unrollings of the loop that always suffice for a timeout. *)
Definition enough_fuel (timeout : Z) : nat := S (S (Z.to_nat (timeout / 1000))).





(** The chain after [n] more status queries, at an instant. *)
Definition polled {PublicKey Keypair : Type} (self : SestraWallet) (txHash : string)
    (chain : Chain PublicKey Keypair) (instant : Z) (n : nat) : Chain PublicKey Keypair :=
  {| time := instant;
     queries := queries chain ++ repeat (connection self, getSignatureStatus txHash) n |}.

(** ** [src/errors.ts] *)

(** The error classes of the SDK.  [SestraError] extends the built-in
    [Error]; every other class extends one of these. *)
Inductive ErrorClass :=
| SestraError
| PaymentCreationError
| PaymentVerificationError
| PaymentNotFoundError
| SessionError
| NoSessionError
| SessionExpiredError
| ApiError
| NetworkError
| SandboxModeError
| WalletTransactionError
| ValidationError.

Global Instance ErrorClass_eq_dec : EqDecision ErrorClass.
Proof. solve_decision. Defined.

(** [class C extends P]; [None] for the class that extends [Error]. *)
Definition extends (c : ErrorClass) : option ErrorClass :=
  match c with
  | SestraError => None
  | NoSessionError | SessionExpiredError => Some SessionError
  | _ => Some SestraError
  end.

Module SdkError.
(** An instance: its prototype (the class whose constructor ran last
    [Object.setPrototypeOf]) and its own properties. *)
Record t := mk {
  prototype : ErrorClass;
  name : string;
  message : string;
  code : string;
  statusCode : option Z;
  referenceId : option string;
  endpoint : option string;
  response : option JSON;
  originalError : option Exn;
  txHash : option string;
  field : option string;
}.
(** [this.name = name; Object.setPrototypeOf(this, C.prototype)], the two
    statements every constructor ends with. *)
Definition named (c : ErrorClass) (n : string) (e : t) : t :=
  mk c n (message e) (code e) (statusCode e) (referenceId e) (endpoint e)
    (response e) (originalError e) (txHash e) (field e).
End SdkError.

Definition new_SestraError (message code : string) (statusCode : option Z) : SdkError.t :=
  SdkError.named SestraError "SestraError"
    (SdkError.mk SestraError "Error" message code statusCode None None None None None None).

Definition new_PaymentCreationError (message : string) (statusCode : option Z) : SdkError.t :=
  SdkError.named PaymentCreationError "PaymentCreationError"
    (new_SestraError message "PAYMENT_CREATION_FAILED" statusCode).

Definition new_PaymentVerificationError (message : string) (referenceId : option string)
    (statusCode : option Z) : SdkError.t :=
  let e := new_SestraError message "PAYMENT_VERIFICATION_FAILED" statusCode in
  SdkError.named PaymentVerificationError "PaymentVerificationError"
    (SdkError.mk (SdkError.prototype e) (SdkError.name e) (SdkError.message e)
       (SdkError.code e) (SdkError.statusCode e) referenceId (SdkError.endpoint e)
       (SdkError.response e) (SdkError.originalError e) (SdkError.txHash e)
       (SdkError.field e)).

Definition new_PaymentNotFoundError (referenceId : string) : SdkError.t :=
  let e := new_SestraError ("Payment not found: " +:+ referenceId) "PAYMENT_NOT_FOUND"
             (Some 404) in
  SdkError.named PaymentNotFoundError "PaymentNotFoundError"
    (SdkError.mk (SdkError.prototype e) (SdkError.name e) (SdkError.message e)
       (SdkError.code e) (SdkError.statusCode e) (Some referenceId) (SdkError.endpoint e)
       (SdkError.response e) (SdkError.originalError e) (SdkError.txHash e)
       (SdkError.field e)).

Definition new_SessionError (message : string) : SdkError.t :=
  SdkError.named SessionError "SessionError"
    (new_SestraError message "SESSION_ERROR" (Some 401)).

Definition new_NoSessionError : SdkError.t :=
  SdkError.named NoSessionError "NoSessionError"
    (new_SessionError "No active session. Call verifyPayment() or simulatePayment() first.").

Definition new_SessionExpiredError : SdkError.t :=
  SdkError.named SessionExpiredError "SessionExpiredError"
    (new_SessionError "Session expired or no calls remaining.").

Definition new_ApiError (message : string) (statusCode : option Z)
    (endpoint : option string) (response : option JSON) : SdkError.t :=
  let e := new_SestraError message "API_ERROR" statusCode in
  SdkError.named ApiError "ApiError"
    (SdkError.mk (SdkError.prototype e) (SdkError.name e) (SdkError.message e)
       (SdkError.code e) (SdkError.statusCode e) (SdkError.referenceId e) endpoint
       response (SdkError.originalError e) (SdkError.txHash e) (SdkError.field e)).

Definition new_NetworkError (message : string) (originalError : option Exn) : SdkError.t :=
  let e := new_SestraError message "NETWORK_ERROR" None in
  SdkError.named NetworkError "NetworkError"
    (SdkError.mk (SdkError.prototype e) (SdkError.name e) (SdkError.message e)
       (SdkError.code e) (SdkError.statusCode e) (SdkError.referenceId e)
       (SdkError.endpoint e) (SdkError.response e) originalError (SdkError.txHash e)
       (SdkError.field e)).

Definition new_SandboxModeError (message : string) : SdkError.t :=
  SdkError.named SandboxModeError "SandboxModeError"
    (new_SestraError message "SANDBOX_MODE_ERROR" (Some 400)).

Definition new_WalletTransactionError (message : string) (txHash : option string)
    : SdkError.t :=
  let e := new_SestraError message "WALLET_TRANSACTION_ERROR" None in
  SdkError.named WalletTransactionError "WalletTransactionError"
    (SdkError.mk (SdkError.prototype e) (SdkError.name e) (SdkError.message e)
       (SdkError.code e) (SdkError.statusCode e) (SdkError.referenceId e)
       (SdkError.endpoint e) (SdkError.response e) (SdkError.originalError e) txHash
       (SdkError.field e)).

Definition new_ValidationError (message : string) (field : option string) : SdkError.t :=
  let e := new_SestraError message "VALIDATION_ERROR" (Some 400) in
  SdkError.named ValidationError "ValidationError"
    (SdkError.mk (SdkError.prototype e) (SdkError.name e) (SdkError.message e)
       (SdkError.code e) (SdkError.statusCode e) (SdkError.referenceId e)
       (SdkError.endpoint e) (SdkError.response e) (SdkError.originalError e)
       (SdkError.txHash e) field).

(** The prototype chain of a class, itself first; [depth] bounds the walk. *)
Fixpoint prototype_chain (depth : nat) (c : ErrorClass) : list ErrorClass :=
  c :: match depth, extends c with
       | S depth, Some parent => prototype_chain depth parent
       | _, _ => []
       end.

(** [e instanceof C] *)
Definition instanceof (e : SdkError.t) (c : ErrorClass) : bool :=
  bool_decide (c ∈ prototype_chain 12 (SdkError.prototype e)).

(** A value of type [unknown], as far as [isSestraError] tells values apart:
    an instance of a class of the SDK, another [Error], or anything else. *)
Inductive Unknown :=
| SdkInstance (e : SdkError.t)
| OtherError (message : string)
| OtherValue.

Definition isSestraError (error : Unknown) : bool :=
  match error with
  | SdkInstance e => instanceof e SestraError
  | OtherError _ | OtherValue => false
  end.

(** The constant [ErrorCodes]: its keys and their values. *)
Definition ErrorCodes : list (string * string) :=
  [ ("PAYMENT_CREATION_FAILED", "PAYMENT_CREATION_FAILED");
    ("PAYMENT_VERIFICATION_FAILED", "PAYMENT_VERIFICATION_FAILED");
    ("PAYMENT_NOT_FOUND", "PAYMENT_NOT_FOUND");
    ("SESSION_ERROR", "SESSION_ERROR");
    ("API_ERROR", "API_ERROR");
    ("NETWORK_ERROR", "NETWORK_ERROR");
    ("SANDBOX_MODE_ERROR", "SANDBOX_MODE_ERROR");
    ("WALLET_TRANSACTION_ERROR", "WALLET_TRANSACTION_ERROR");
    ("VALIDATION_ERROR", "VALIDATION_ERROR") ].

(** An error built by the constructor of one of the eleven classes below
    [SestraError], with any arguments. *)
Inductive Built : SdkError.t -> Prop :=
| built_PaymentCreationError message statusCode :
    Built (new_PaymentCreationError message statusCode)
| built_PaymentVerificationError message referenceId statusCode :
    Built (new_PaymentVerificationError message referenceId statusCode)
| built_PaymentNotFoundError referenceId :
    Built (new_PaymentNotFoundError referenceId)
| built_SessionError message :
    Built (new_SessionError message)
| built_NoSessionError :
    Built new_NoSessionError
| built_SessionExpiredError :
    Built new_SessionExpiredError
| built_ApiError message statusCode endpoint response :
    Built (new_ApiError message statusCode endpoint response)
| built_NetworkError message originalError :
    Built (new_NetworkError message originalError)
| built_SandboxModeError message :
    Built (new_SandboxModeError message)
| built_WalletTransactionError message txHash :
    Built (new_WalletTransactionError message txHash)
| built_ValidationError message field :
    Built (new_ValidationError message field).

(** ** Vocabulary of the further properties *)

(** The path prefix of the payment operations of a client. *)
Definition payments_prefix (w : World) : string :=
  if sandboxed w then "/api/v1/sandbox/payments" else "/api/v1/payments".

(** The filters of [listPayments] that reach the query string, in the
    order they are set: a status, a limit that is not 0, an offset that is
    not 0. *)
Definition sent_filters (digits : Z -> string) (options : ListPaymentsOptions.t)
    : list (string * string) :=
  match ListPaymentsOptions.status options with
  | Some status => [("status", PaymentStatus_toString status)]
  | None => []
  end
  ++ match ListPaymentsOptions.limit options with
     | Some limit => if (limit =? 0)%Z then [] else [("limit", digits limit)]
     | None => []
     end
  ++ match ListPaymentsOptions.offset options with
     | Some offset => if (offset =? 0)%Z then [] else [("offset", digits offset)]
     | None => []
     end.

(** A query string of the pairs as [name=value] joined by [&], the values
    percent-encoded by [encode]. *)
Definition query_string (encode : string -> string) (filters : list (string * string))
    : string :=
  String.concat "&" (map (fun filter => filter.1 +:+ "=" +:+ encode filter.2) filters).

(** A limit or an offset within the safe integers, when there is one. *)
Definition safe (n : option Z) : Prop :=
  match n with
  | Some n => - Number_MAX_SAFE_INTEGER <= n <= Number_MAX_SAFE_INTEGER
  | None => True
  end.

(** A stand-in for the digits of a number beyond the safe integers in the
    examples, which use it at 10^21 alone. *)
Definition Number_toString_large_example (n : Z) : string :=
  if (n =? 10 ^ 21)%Z then "1e+21" else pretty n.

(** The call [verifyPayment] sends. *)
Definition verify_call (w : World) (referenceId txHash : string) : HttpCall :=
  {| url := template (SestraConfig.baseUrl (SestraClient.config (this w)))
            +:+ "/api/v1/payments/" +:+ referenceId +:+ "/verify";
     init := RequestInit.mk (Some "POST")
               (Some (∅ ∪ {[ "Content-Type" := "application/json" ]}))
               (Some (RequestInit.BodyJSON (JObj [("tx_hash", JStr txHash)]))) |}.

(** The session [verifyPayment] builds from a response. *)
Definition verified_session (data : VerifyPaymentResponse.t) : Session.t :=
  Session.mk (VerifyPaymentResponse.token data) (VerifyPaymentResponse.reference_id data)
    (VerifyPaymentResponse.expires_at data) (VerifyPaymentResponse.calls_remaining data).

(** A round of the polling loop in which the query answers at once and the
    timer fires on time. *)
Definition punctual (round : Round) : Prop :=
  latency round = 0%N /\ late round = 0%N.

(** A session with an empty token and a future expiry. *)
Definition tokenless_session_example : Session.t :=
  Session.mk "" "ref-123" "2030-01-01T00:00:00.000Z" 100.

(** A caller of [request] that sets headers of its own, among them the
    session header. *)
Definition headers_example : gmap string string :=
  {[ "X-Session-Token" := "forged"; "Accept" := "text/plain" ]}.

Definition options_example : RequestInit.t :=
  RequestInit.mk (Some "GET") (Some headers_example) None.

(** A successful simulation that names a token and nothing else. *)
Definition bare_simulation_example : SimulatePaymentResponse.t :=
  SimulatePaymentResponse.mk true "ref-123" active true (Some "tok-1") None None
    "Payment simulated successfully".

Definition verification_example : VerifyPaymentResponse.t :=
  VerifyPaymentResponse.mk true "ref-123" active "session-token-xyz"
    "2030-01-01T00:00:00.000Z" 100.

Definition details_example : PaymentDetails.t :=
  PaymentDetails.mk mainnet_beta "11111111111111111111111111111111"
    "4vJ9JU1bJJE96FWSJKvHsmmFADCg4gpZQff4P3bkLKi" 1000000000 (1 # 1)%Q 50000000 950000000
    "payment-ref-456" 3600 "program-123" false.

(** ** Properties of the gateway client *)

Local Arguments fetch : simpl never.
Local Arguments data_or_throw : simpl never.

(** Take the branch of a decided [if (!x)] and enter the rest of the body. *)
Ltac js_step := cbv beta iota delta [negb].


(** *** The unit tests of the repository, replayed on the model *)

Example hasActiveSession_without_session :
  (hasActiveSession Date_parse_example (world_example SestraConfig.empty)).1 = Returns false.
Proof. reflexivity. Qed.

Example hasActiveSession_with_expired_session :
  (hasActiveSession Date_parse_example
     (setSession (Session.mk "test-token-123" "ref-123" "2020-01-01T00:00:00.000Z" 100)
        (world_example SestraConfig.empty)).2).1
  = Returns false.
Proof. reflexivity. Qed.

Example request_decrements_calls_remaining :
  Session.calls_remaining
  <$> SestraClient.currentSession
        (this (request Date_parse_example "/api/test" RequestInit.empty
                 protected_reply_example
                 (setSession session_example (world_example SestraConfig.empty)).2).2)
  = Some 99.
Proof. reflexivity. Qed.

Example request_without_session :
  request Date_parse_example "/api/protected" RequestInit.empty protected_reply_example
    (world_example SestraConfig.empty)
  = (Throws (Error "No active session. Call verifyPayment() or simulatePayment() first."),
     world_example SestraConfig.empty).
Proof. reflexivity. Qed.

Example request_with_expired_session :
  (request Date_parse_example "/api/protected" RequestInit.empty protected_reply_example
     (setSession (Session.mk "expired-token" "ref-123" "2020-01-01T00:00:00.000Z" 100)
        (world_example SestraConfig.empty)).2).1
  = Throws (Error "Session expired or no calls remaining.").
Proof. reflexivity. Qed.

Example listPayments_without_payments :
  (listPayments Number_toString_large_example ListPaymentsOptions.empty
     (FetchResolves true (Returns None))
     (world_example SestraConfig.empty)).1
  = Returns [].
Proof. reflexivity. Qed.

Example createPayment_server_error :
  (createPayment (CreatePaymentRequest.mk "invalid" None)
     (FetchRejects (Error "Network error")) (world_example SestraConfig.empty)).1
  = Throws (Error "Network error").
Proof. reflexivity. Qed.

Example simulatePayment_failed_simulation :
  (getSession
     (simulatePayment "ref-123" (SimulatePaymentRequest.mk (Some false))
        (FetchResolves true (Returns (Some (Parsed.plain failed_simulation_example))))
        (world_example (SestraConfig.mk None None None None (Some true) None))).2).1
  = Returns None.
Proof. reflexivity. Qed.

Example getNetwork_devnet :
  new_SestraWallet Connection_example "https://api.devnet.solana.com"
  = Returns {| connection := "https://api.devnet.solana.com"; network := devnet |}
  /\ getNetwork {| connection := "https://api.devnet.solana.com"; network := devnet |}
     = "devnet"
  /\ new_SestraWallet Connection_example SestraWallet_default_rpcEndpoint
     = Returns wallet_example
  /\ getNetwork wallet_example = "mainnet-beta".
Proof. repeat split; reflexivity. Qed.

(** [waitForConfirmation("hash", 2000)] against a chain that never reports
    a confirmation: false, 2000 ms and two queries later. *)
Example waitForConfirmation_two_seconds :
  waitForConfirmation (enough_fuel 2000) wallet_example "hash" 2000
    (fun _ => {| latency := 0; answer := Returns None; late := 0 |}) chain_example
  = (Returns (Some false),
     polled wallet_example "hash" chain_example (time chain_example + 2000) 2).
Proof. reflexivity. Qed.

Example isTransactionConfirmed_swallows :
  (isTransactionConfirmed wallet_example "hash"
     {| latency := 0; answer := Throws (Error "fetch failed"); late := 0 |}
     chain_example).1
  = Returns false.
Proof. reflexivity. Qed.

Section AdapterFacts.

Context {T : Type}.

(** The adapter makes exactly one call, never throws, and leaves the
    client as it is. *)
Lemma fetch_run (endpoint : string) (options : RequestInit.t) (reply : FetchReply T)
    (w : World) :
  fetch endpoint options reply w
  = (Returns (adapter_result reply), record (adapter_call w endpoint options) w).
Proof.
  unfold fetch, bind, get, try_catch, global_fetch, modify, json, throw, ret.
  destruct reply as [e | ok [document | e]]; simpl; try reflexivity.
  destruct ok; simpl; [reflexivity |].
  destruct document; reflexivity.
Qed.

Context `{Truthy T}.

Lemma data_or_throw_run (reply : FetchReply T) (fallback : string) (w : World) :
  data_or_throw (adapter_result reply) fallback w
  = match accepted reply with
    | Some data => (Returns data, w)
    | None =>
        (Throws (Error (or_else (ApiResponse.error (adapter_result reply)) fallback)), w)
    end.
Proof.
  unfold data_or_throw, accepted.
  destruct reply as [e | ok [document | e]]; simpl; try reflexivity;
    destruct ok; simpl; try reflexivity;
    destruct document as [d |]; simpl; try reflexivity.
  destruct (truthy (Parsed.value d)); reflexivity.
Qed.

End AdapterFacts.

Section SessionFacts.

Variable Date_parse : string -> Date.

(** [hasActiveSession] only reads: it returns a boolean and leaves the
    world as it is. *)
Lemma hasActiveSession_run (w : World) :
  hasActiveSession Date_parse w
  = (Returns
       match SestraClient.currentSession (this w) with
       | Some session =>
           Date_gt (Date_parse (Session.expires_at session)) (Some (now w))
           && (0 <? Session.calls_remaining session)%Z
       | None => false
       end, w).
Proof.
  unfold hasActiveSession, bind, get, Date_new, ret.
  destruct (SestraClient.currentSession (this w)); reflexivity.
Qed.

Lemma Date_gt_expires_after (session : Session.t) (t : Z) :
  Date_gt (Date_parse (Session.expires_at session)) (Some t) = true
  <-> expires_after Date_parse t session.
Proof.
  unfold expires_after, Date_gt.
  destruct (Date_parse (Session.expires_at session)) as [expiry |].
  - rewrite Z.ltb_lt. split.
    + intros Hlt. exists expiry. auto.
    + intros (expiry' & Heq & Hlt). congruence.
  - split; [discriminate |]. intros (expiry' & Heq & _). discriminate.
Qed.

(** C2. [hasActiveSession()] returns a boolean without changing anything,
    and that boolean is true exactly when a session is set, its
    [expires_at] is strictly in the future and its [calls_remaining] is
    above 0; with no session set it is false. *)
Theorem hasActiveSession_iff (w : World) :
  exists live : bool,
    hasActiveSession Date_parse w = (Returns live, w)
    /\ (live = true <->
        exists session,
          SestraClient.currentSession (this w) = Some session
          /\ expires_after Date_parse (now w) session
          /\ 0 < Session.calls_remaining session)
    /\ (SestraClient.currentSession (this w) = None -> live = false).
Proof.
  rewrite hasActiveSession_run. eexists. split; [reflexivity |].
  destruct (SestraClient.currentSession (this w)) as [session |]; split.
  - rewrite andb_true_iff, Date_gt_expires_after, Z.ltb_lt. split.
    + intros [Hfuture Hcalls]. exists session. auto.
    + intros (session' & Heq & Hfuture & Hcalls).
      injection Heq as <-. auto.
  - discriminate.
  - split; [discriminate |]. intros (session & Heq & _). discriminate.
  - reflexivity.
Qed.

End SessionFacts.

(** C4. On a client configured for the sandbox, [verifyPayment] throws its
    mode-mismatch error and the world is as before: nothing was sent.  On a
    client not configured for the sandbox, [simulatePayment] does the same
    with its own error. *)
Theorem mode_mismatch_fails_before_network
    (sandbox production : World) (referenceId txHash : string)
    (options : SimulatePaymentRequest.t)
    (verification : FetchReply VerifyPaymentResponse.t)
    (simulation : FetchReply SimulatePaymentResponse.t) :
  sandboxed sandbox = true ->
  sandboxed production = false ->
  verifyPayment referenceId txHash verification sandbox
  = (Throws (Error "Use simulatePayment() for sandbox mode"), sandbox)
  /\ simulatePayment referenceId options simulation production
     = (Throws (Error "simulatePayment() only works in sandbox mode. Set sandbox: true in config."),
        production).
Proof.
  unfold sandboxed. intros Hsandbox Hproduction. split.
  - unfold verifyPayment, bind, get. rewrite Hsandbox. reflexivity.
  - unfold simulatePayment, bind, get. rewrite Hproduction. reflexivity.
Qed.

Lemma mode_mismatch_fails_before_network_witness :
  verifyPayment "ref-123" "tx-hash" (FetchRejects NonError)
    (world_example (SestraConfig.mk None None None None (Some true) None))
  = (Throws (Error "Use simulatePayment() for sandbox mode"),
     world_example (SestraConfig.mk None None None None (Some true) None))
  /\ simulatePayment "ref-123" simulatePayment_default (FetchRejects NonError)
       (world_example SestraConfig.empty)
     = (Throws (Error "simulatePayment() only works in sandbox mode. Set sandbox: true in config."),
        world_example SestraConfig.empty).
Proof.
  apply (mode_mismatch_fails_before_network
           (world_example (SestraConfig.mk None None None None (Some true) None))
           (world_example SestraConfig.empty)); reflexivity.
Defined.

(** The sandbox flag a client is built with is the one it keeps; left out,
    it is the default, off. *)
Lemma new_SestraClient_sandbox (config : SestraConfig.t) :
  truthy (SestraConfig.sandbox (SestraClient.config (new_SestraClient config)))
  = bool_decide (SestraConfig.sandbox config = Some true).
Proof.
  unfold new_SestraClient. simpl. unfold SestraConfig.spread_property.
  destruct (SestraConfig.sandbox config) as [[|] |]; [reflexivity | reflexivity |].
  destruct (bool_decide ("sandbox" ∈ SestraConfig.voids config)); reflexivity.
Qed.

(** C6. [createPayment] makes one call, to the gateway base URL followed by
    one of two paths, chosen by the sandbox flag alone; the path of the
    sandbox contains "sandbox" and the other does not; the flag is on in a
    client exactly when it was built with [sandbox: true]; and neither path
    is a prefix of the other. *)
Theorem createPayment_path_follows_sandbox_flag
    (w : World) (params : CreatePaymentRequest.t)
    (reply : FetchReply CreatePaymentResponse.t) (config : SestraConfig.t) :
  (exists headers body,
      (createPayment params reply w).2
      = record {| url := template (SestraConfig.baseUrl (SestraClient.config (this w)))
                         +:+ (if sandboxed w
                              then "/api/v1/sandbox/payments"
                              else "/api/v1/payments");
                  init := RequestInit.mk (Some "POST") headers body |} w)
  /\ includes "/api/v1/sandbox/payments" "sandbox" = true
  /\ includes "/api/v1/payments" "sandbox" = false
  /\ (truthy (SestraConfig.sandbox (SestraClient.config (new_SestraClient config))) = true
      <-> SestraConfig.sandbox config = Some true)
  /\ String.prefix "/api/v1/sandbox/payments" "/api/v1/payments" = false
  /\ String.prefix "/api/v1/payments" "/api/v1/sandbox/payments" = false.
Proof.
  split; [| split; [reflexivity | split; [reflexivity | split; [| split; reflexivity]]]].
  - unfold createPayment, bind, get. rewrite fetch_run, data_or_throw_run.
    do 2 eexists. destruct (accepted reply); reflexivity.
  - rewrite new_SestraClient_sandbox.
    split; [| intros ->; reflexivity].
    case_bool_decide; [auto | discriminate].
Qed.

(** C10. [listPayments] returns under every reply, leaving the client as
    it is: the list of a 2xx response with a document, unchanged, and the
    empty list for every other reply (a null body, a non-2xx response, a
    body that does not parse, a rejected [fetch]). *)
Theorem listPayments_never_throws (Number_toString_large : Z -> string)
    (w : World) (options : ListPaymentsOptions.t)
    (reply : FetchReply (list PaymentStatusResponse.t)) :
  exists (payments : list PaymentStatusResponse.t) (w' : World),
    listPayments Number_toString_large options reply w = (Returns payments, w')
    /\ this w' = this w
    /\ payments
       = match reply with
         | FetchResolves true (Returns (Some document)) => Parsed.value document
         | _ => []
         end.
Proof.
  unfold listPayments, bind, get. rewrite fetch_run. do 2 eexists.
  split; [reflexivity |]. split; [reflexivity |].
  destruct reply as [e | [|] [[document |] | e]]; reflexivity.
Qed.

Section RequestFacts.

Variable Date_parse : string -> Date.

(** The four ways a call of [request] goes. *)
Lemma request_run {T} `{Truthy T} (endpoint : string) (options : RequestInit.t)
    (reply : FetchReply T) (w : World) :
  request Date_parse endpoint options reply w
  = match SestraClient.sessionToken (this w) with
    | Some sessionToken =>
        if negb (truthy sessionToken) then
          (Throws (Error "No active session. Call verifyPayment() or simulatePayment() first."), w)
        else if negb (live Date_parse w) then
          (Throws (Error "Session expired or no calls remaining."), w)
        else
          let w1 :=
            record (adapter_call w endpoint (with_session_token sessionToken options)) w in
          match accepted reply with
          | Some data => (Returns data, set_this consume w1)
          | None =>
              (Throws (Error (or_else (ApiResponse.error (adapter_result reply))
                                "Request failed")), w1)
          end
    | None =>
        (Throws (Error "No active session. Call verifyPayment() or simulatePayment() first."), w)
    end.
Proof.
  unfold request, bind, get.
  destruct (SestraClient.sessionToken (this w)) as [sessionToken |]; [| reflexivity].
  destruct (truthy sessionToken); [| reflexivity]. js_step.
  rewrite hasActiveSession_run. fold (live Date_parse w).
  destruct (live Date_parse w); [| reflexivity]. js_step.
  rewrite fetch_run, data_or_throw_run.
  destruct (accepted reply); reflexivity.
Qed.

(** One call, on a client with a session: a call that returns has taken
    one call off the session and nothing else; a call that throws has left
    the client as it was. *)
Lemma request_step {T} `{Truthy T} (endpoint : string) (options : RequestInit.t)
    (reply : FetchReply T) (w : World) (session : Session.t) :
  SestraClient.currentSession (this w) = Some session ->
  match request Date_parse endpoint options reply w with
  | (Returns data, w') =>
      accepted reply = Some data
      /\ live Date_parse w = true
      /\ this w' = SestraClient.mk (SestraClient.config (this w))
                     (SestraClient.sessionToken (this w)) (Some (decrement session))
  | (Throws _, w') => this w' = this w
  end.
Proof.
  intros Hsession. rewrite request_run.
  destruct (SestraClient.sessionToken (this w)) as [sessionToken |] eqn:Htoken;
    [| reflexivity].
  destruct (truthy sessionToken); [| reflexivity].
  destruct (live Date_parse w); [| reflexivity]. simpl.
  destruct (accepted reply) as [data |]; [| reflexivity].
  repeat split. unfold consume. simpl. rewrite Hsession, Htoken. reflexivity.
Qed.

Lemma live_calls_remaining (w : World) (session : Session.t) :
  SestraClient.currentSession (this w) = Some session ->
  live Date_parse w = true -> 0 < Session.calls_remaining session.
Proof.
  unfold live. intros ->. rewrite andb_true_iff, Z.ltb_lt. tauto.
Qed.

(** A sequence of calls: the session stays the same but for its counter,
    which has gone down by the number of calls that returned; that number
    never exceeds the calls the session started with. *)
Lemma requests_count (calls : list Call) :
  forall (w : World) (session : Session.t),
    SestraClient.currentSession (this w) = Some session ->
    exists session',
      SestraClient.currentSession (this (requests Date_parse calls w).2) = Some session'
      /\ Session.calls_remaining session'
         = Session.calls_remaining session - Z.of_nat (requests Date_parse calls w).1
      /\ Session.expires_at session' = Session.expires_at session
      /\ Z.of_nat (requests Date_parse calls w).1 <= Z.max 0 (Session.calls_remaining session).
Proof.
  induction calls as [| c rest IH]; intros w session Hsession.
  - exists session. simpl. repeat split; auto; lia.
  - simpl.
    pose proof (@request_step (Call_T c) (Call_Truthy c) (Call_endpoint c)
                  (Call_options c) (Call_reply c) (set_now (Call_at c) w) session
                  Hsession) as Hstep.
    destruct (request Date_parse (Call_endpoint c) (Call_options c) (Call_reply c)
                (set_now (Call_at c) w)) as [[data | e] w1].
    + destruct Hstep as (_ & Hlive & Hthis).
      apply (live_calls_remaining (set_now (Call_at c) w) session Hsession) in Hlive.
      destruct (IH w1 (decrement session)) as (session' & Hs' & Hcalls & Hexp & Hle).
      { rewrite Hthis. reflexivity. }
      destruct (requests Date_parse rest w1) as [k w2]. simpl in *.
      exists session'. repeat split; auto; lia.
    + destruct (IH w1 session) as (session' & Hs' & Hcalls & Hexp & Hle).
      { rewrite Hstep. exact Hsession. }
      destruct (requests Date_parse rest w1) as [k w2]. simpl in *.
      exists session'. repeat split; auto; lia.
Qed.

(** C1. On a client with a stored session, a call of [request] that
    returns was answered by a 2xx response with data and has taken exactly
    one call off the session; a call that throws, for whichever reason,
    has left the client and its session as they were.  Hence, over any
    sequence of calls, [calls_remaining] has gone down by the number of
    calls that returned, and once that number equals the initial
    [calls_remaining] the session is not active at any instant. *)
Theorem request_takes_one_call_on_success {T} `{Truthy T}
    (w : World) (session : Session.t) (endpoint : string)
    (options : RequestInit.t) (reply : FetchReply T) (calls : list Call) :
  SestraClient.currentSession (this w) = Some session ->
  match request Date_parse endpoint options reply w with
  | (Returns data, w') =>
      accepted reply = Some data
      /\ SestraClient.currentSession (this w') = Some (decrement session)
      /\ Session.calls_remaining (decrement session) = Session.calls_remaining session - 1
  | (Throws _, w') => this w' = this w
  end
  /\ (exists session',
        SestraClient.currentSession (this (requests Date_parse calls w).2) = Some session'
        /\ Session.calls_remaining session'
           = Session.calls_remaining session - Z.of_nat (requests Date_parse calls w).1
        /\ Z.of_nat (requests Date_parse calls w).1 <= Z.max 0 (Session.calls_remaining session)
        /\ (Z.of_nat (requests Date_parse calls w).1 = Session.calls_remaining session ->
            forall t : Z,
              hasActiveSession Date_parse (set_now t (requests Date_parse calls w).2)
              = (Returns false, set_now t (requests Date_parse calls w).2))).
Proof.
  intros Hsession. split.
  - pose proof (request_step endpoint options reply w session Hsession) as Hstep.
    destruct (request Date_parse endpoint options reply w) as [[data | e] w1]; [| exact Hstep].
    destruct Hstep as (Haccepted & _ & Hthis).
    rewrite Hthis. auto.
  - destruct (requests_count calls w session Hsession)
      as (session' & Hs' & Hcalls & _ & Hle).
    exists session'. repeat split; auto.
    intros Hall t. rewrite hasActiveSession_run. simpl this. rewrite Hs'.
    replace (0 <? Session.calls_remaining session')%Z with false.
    + rewrite andb_false_r. reflexivity.
    + symmetry. apply Z.ltb_ge. lia.
Qed.

End RequestFacts.

Lemma request_takes_one_call_on_success_witness :
  (requests Date_parse_example calls_example two_calls_world_example).1 = 2%nat
  /\ exists session',
       SestraClient.currentSession
         (this (requests Date_parse_example calls_example two_calls_world_example).2)
       = Some session'
       /\ Session.calls_remaining session' = 0.
Proof.
  split; [reflexivity |].
  destruct (request_takes_one_call_on_success Date_parse_example two_calls_world_example
              two_calls_session_example "/api/test" RequestInit.empty
              protected_reply_example calls_example eq_refl)
    as [_ (session' & Hsession' & Hcalls & _)].
  exists session'. split; [exact Hsession' |]. rewrite Hcalls. reflexivity.
Defined.

Section ProtectedCallFacts.

Variable Date_parse : string -> Date.

(** The call [request] sends for a live session: the URL is the one base
    URL of the client followed by the endpoint, and the init carries the
    session token in the header [X-Session-Token]. *)
Lemma request_sends {T} `{Truthy T} (endpoint : string) (options : RequestInit.t)
    (reply : FetchReply T) (w : World) (sessionToken : string) :
  SestraClient.sessionToken (this w) = Some sessionToken ->
  truthy sessionToken = true ->
  live Date_parse w = true ->
  exists headers : gmap string string,
    sent (request Date_parse endpoint options reply w).2
    = (sent w
       ++ [ {| url := template (SestraConfig.baseUrl (SestraClient.config (this w)))
                      +:+ endpoint;
               init := RequestInit.mk (RequestInit.method options) (Some headers)
                         (RequestInit.body options) |} ])%list
    /\ headers !! "X-Session-Token" = Some sessionToken.
Proof.
  intros Htoken Htruthy Hlive. rewrite request_run, Htoken, Htruthy, Hlive.
  js_step. eexists. split.
  - destruct (accepted reply); reflexivity.
  - apply lookup_union_Some_l. apply lookup_insert_eq.
Qed.

End ProtectedCallFacts.

(** C3. The client of the unit test "should use serviceBaseUrl when
    configured", with its session, calling [request('/api/protected')]:
    the one call made carries the session token in [X-Session-Token], but
    it goes to the gateway base URL, not to the configured
    [serviceBaseUrl]. *)
Theorem request_ignores_serviceBaseUrl :
  exists headers : gmap string string,
    request Date_parse_example "/api/protected" RequestInit.empty service_reply_example
      service_world_example
    = (Returns "service response",
       {| this := SestraClient.mk (SestraConfig.spread DEFAULT_CONFIG service_config_example)
                    (Some "test-token") (Some (decrement session_example));
          now := now service_world_example;
          sent := [ {| url := "https://api.sestralabs.xyz/api/protected";
                       init := RequestInit.mk None (Some headers) None |} ] |})
    /\ headers !! "X-Session-Token" = Some "test-token"
    /\ SestraConfig.serviceBaseUrl (SestraClient.config (this service_world_example))
       = Some "https://api.myservice.com"
    /\ "https://api.sestralabs.xyz/api/protected" <> "https://api.myservice.com/api/protected".
Proof.
  eexists. split; [| split; [| split]].
  - rewrite request_run. reflexivity.
  - apply lookup_union_Some_l. apply lookup_insert_eq.
  - reflexivity.
  - discriminate.
Qed.

Lemma simulatePayment_run (referenceId : string) (options : SimulatePaymentRequest.t)
    (reply : FetchReply SimulatePaymentResponse.t) (w : World) :
  sandboxed w = true ->
  simulatePayment referenceId options reply w
  = match accepted reply with
    | Some data =>
        (Returns data,
         match granted data with
         | Some session =>
             set_this (fun c => SestraClient.mk (SestraClient.config c)
                                  (Some (Session.token session)) (Some session))
               (record (simulate_call w referenceId options) w)
         | None => record (simulate_call w referenceId options) w
         end)
    | None =>
        (Throws (Error (or_else (ApiResponse.error (adapter_result reply))
                          "Payment simulation failed")),
         record (simulate_call w referenceId options) w)
    end.
Proof.
  unfold sandboxed. intros Hsandbox.
  unfold simulatePayment, bind, get. rewrite Hsandbox. js_step.
  rewrite fetch_run, data_or_throw_run.
  destruct (accepted reply) as [data |]; [| reflexivity].
  unfold granted.
  destruct (SimulatePaymentResponse.token data) as [token |]; [| reflexivity].
  destruct (SimulatePaymentResponse.success data && truthy token); reflexivity.
Qed.

(** C5. On a sandbox client, whatever session is stored: a simulation
    whose response indicates failure, or has no token, leaves the client's
    session and token exactly as they were; the client differs after the
    call only if the response was a 2xx document indicating success with a
    non-empty token, and then the session stored is the one built from that
    response.  The configuration is never touched. *)
Theorem simulatePayment_overwrites_only_on_success
    (w : World) (referenceId : string) (options : SimulatePaymentRequest.t)
    (reply : FetchReply SimulatePaymentResponse.t) :
  sandboxed w = true ->
  SestraClient.config (this (simulatePayment referenceId options reply w).2)
  = SestraClient.config (this w)
  /\ (forall ok document,
        reply = FetchResolves ok (Returns (Some document)) ->
        SimulatePaymentResponse.success (Parsed.value document) = false
        \/ SimulatePaymentResponse.token (Parsed.value document) = None ->
        this (simulatePayment referenceId options reply w).2 = this w)
  /\ (this (simulatePayment referenceId options reply w).2 <> this w ->
      exists document token,
        reply = FetchResolves true (Returns (Some document))
        /\ SimulatePaymentResponse.success (Parsed.value document) = true
        /\ SimulatePaymentResponse.token (Parsed.value document) = Some token
        /\ token <> "")
  /\ (forall document token,
        reply = FetchResolves true (Returns (Some document)) ->
        SimulatePaymentResponse.success (Parsed.value document) = true ->
        SimulatePaymentResponse.token (Parsed.value document) = Some token ->
        token <> "" ->
        simulatePayment referenceId options reply w
        = (Returns (Parsed.value document),
           {| this :=
                SestraClient.mk (SestraClient.config (this w)) (Some token)
                  (Some (Session.mk token
                           (SimulatePaymentResponse.reference_id (Parsed.value document))
                           (or_else (SimulatePaymentResponse.expires_at (Parsed.value document)) "")
                           (or_else (SimulatePaymentResponse.calls_remaining (Parsed.value document)) 0)));
              now := now w;
              sent := sent w ++ [simulate_call w referenceId options] |})).
Proof.
  intros Hsandbox. rewrite (simulatePayment_run _ _ _ _ Hsandbox).
  split; [| split; [| split]].
  - destruct (accepted reply) as [data |]; [destruct (granted data) |]; reflexivity.
  - intros ok document -> Hfailure. destruct ok; [| reflexivity].
    simpl accepted. cbv iota. unfold granted.
    destruct Hfailure as [-> | ->]; [| reflexivity].
    destruct (SimulatePaymentResponse.token (Parsed.value document)); reflexivity.
  - intros Hchanged.
    destruct reply as [e | [|] [[document |] | e]];
      try (exfalso; apply Hchanged; reflexivity).
    revert Hchanged. simpl accepted. cbv iota. unfold granted.
    destruct (SimulatePaymentResponse.token (Parsed.value document)) as [token |] eqn:Htoken;
      [| intros Hchanged; exfalso; apply Hchanged; reflexivity].
    destruct (SimulatePaymentResponse.success (Parsed.value document)) eqn:Hsuccess;
      [| intros Hchanged; exfalso; apply Hchanged; reflexivity].
    destruct token as [| a token];
      [intros Hchanged; exfalso; apply Hchanged; reflexivity |].
    intros _. exists document, (String a token). auto.
  - intros document token -> Hsuccess Htoken Hnonempty.
    simpl accepted. cbv iota. unfold granted. rewrite Htoken, Hsuccess.
    destruct token as [| a token]; [congruence |]. reflexivity.
Qed.

(** ** Properties of the wallet helper *)

Lemma simulatePayment_overwrites_only_on_success_witness :
  sandboxed sandbox_world_example = true
  /\ this (simulatePayment "ref-123" (SimulatePaymentRequest.mk (Some false))
             (FetchResolves true (Returns (Some (Parsed.plain failed_simulation_example))))
             sandbox_world_example).2
     = this sandbox_world_example.
Proof.
  split; [reflexivity |].
  apply (proj1 (proj2 (simulatePayment_overwrites_only_on_success sandbox_world_example
                         "ref-123" (SimulatePaymentRequest.mk (Some false))
                         (FetchResolves true
                            (Returns (Some (Parsed.plain failed_simulation_example))))
                         eq_refl))
           true (Parsed.plain failed_simulation_example) eq_refl).
  left. reflexivity.
Defined.

Section TransactionFacts.

Context {PublicKey Keypair : Type}.
Variable PublicKey_new : string -> Outcome PublicKey.
Variable publicKey : Keypair -> PublicKey.
Variable transfer_RangeError : Z -> Exn.

Lemma u64_range (lamports : Z) : u64 lamports = true <-> 0 <= lamports < 2 ^ 64.
Proof. unfold u64. rewrite andb_true_iff, Z.leb_le, Z.ltb_lt. reflexivity. Qed.

Lemma u64_decide (lamports : Z) : u64 lamports = bool_decide (0 <= lamports < 2 ^ 64).
Proof.
  case_bool_decide as Hrange.
  - apply u64_range. exact Hrange.
  - destruct (u64 lamports) eqn:Hu64; [| reflexivity].
    apply u64_range in Hu64. contradiction.
Qed.

(** The three places at which the build of a payment can stop, in their
    order: the decoding of the recipient, the encoding of the amount, the
    blockhash query. *)
Lemma createPaymentTransaction_run (self : SestraWallet) (payer : PublicKey)
    (params : PaymentParams.t) (latest : Outcome string)
    (chain : Chain PublicKey Keypair) :
  createPaymentTransaction PublicKey_new transfer_RangeError self payer params latest chain
  = match PublicKey_new (PaymentParams.recipientAddress params) with
    | Returns toPubkey =>
        if u64 (PaymentParams.amountLamports params) then
          (match latest with
           | Returns blockhash =>
               Returns
                 {| instructions :=
                      [ Transfer payer toPubkey (PaymentParams.amountLamports params);
                        Memo (PaymentParams.memo params) [payer] ];
                    recentBlockhash := Some blockhash;
                    feePayer := Some payer |}
           | Throws e => Throws e
           end,
           {| time := time chain;
              queries := queries chain ++ [(connection self, getLatestBlockhash)] |})
        else (Throws (transfer_RangeError (PaymentParams.amountLamports params)), chain)
    | Throws e => (Throws e, chain)
    end.
Proof.
  unfold createPaymentTransaction, SystemProgram_transfer, createMemoInstruction.
  unfold bind, call, rpc, modify, ret, throw.
  destruct (PublicKey_new (PaymentParams.recipientAddress params)); [| reflexivity].
  destruct (u64 (PaymentParams.amountLamports params)); [| reflexivity].
  destruct latest; reflexivity.
Qed.

(** C7, as the code has it.  With a recipient address the key decoder
    accepts and an amount of lamports that is an unsigned 64-bit number,
    [createPaymentTransaction] asks for the latest blockhash, and when that
    query resolves it returns the transaction of exactly two instructions,
    in this order: the transfer from the payer to the recipient of the
    given lamports, and the memo with the given text, signed by the payer;
    when the query rejects, so does the call.  With a recipient address the
    decoder rejects, the call throws the decoder's exception and no query
    has been sent. *)
Theorem createPaymentTransaction_two_instructions (self : SestraWallet)
    (payer toPubkey : PublicKey) (valid invalid : PaymentParams.t) (rejection : Exn)
    (latest : Outcome string) (chain : Chain PublicKey Keypair) :
  PublicKey_new (PaymentParams.recipientAddress valid) = Returns toPubkey ->
  0 <= PaymentParams.amountLamports valid < 2 ^ 64 ->
  PublicKey_new (PaymentParams.recipientAddress invalid) = Throws rejection ->
  createPaymentTransaction PublicKey_new transfer_RangeError self payer valid latest chain
  = (match latest with
     | Returns blockhash =>
         Returns
           {| instructions :=
                [ Transfer payer toPubkey (PaymentParams.amountLamports valid);
                  Memo (PaymentParams.memo valid) [payer] ];
              recentBlockhash := Some blockhash;
              feePayer := Some payer |}
     | Throws e => Throws e
     end,
     {| time := time chain;
        queries := queries chain ++ [(connection self, getLatestBlockhash)] |})
  /\ createPaymentTransaction PublicKey_new transfer_RangeError self payer invalid latest chain
     = (Throws rejection, chain).
Proof.
  intros Hvalid Hamount Hinvalid. apply u64_range in Hamount.
  rewrite !createPaymentTransaction_run, Hvalid, Hamount, Hinvalid.
  split; reflexivity.
Qed.

(** C8. [sendPayment] returns under every answer of the decoder and of
    the chain, and what it returns has exactly one of [txHash] and [error]:
    the signature with [success: true] when the transaction was built and
    submitted, and otherwise the message of the first exception of the
    build (from the decoding of the recipient, from the encoding of an
    amount that is not an unsigned 64-bit number, or from the blockhash
    query) or of the submission, with [success: false]. *)
Theorem sendPayment_returns_one_of_txHash_and_error (self : SestraWallet)
    (keypair : Keypair) (params : PaymentParams.t) (latest submitted : Outcome string)
    (chain : Chain PublicKey Keypair) :
  exists (result : PaymentResult.t) (chain' : Chain PublicKey Keypair),
    sendPayment PublicKey_new publicKey transfer_RangeError self keypair params
      latest submitted chain
    = (Returns result, chain')
    /\ result
       = match PublicKey_new (PaymentParams.recipientAddress params) with
         | Throws e => PaymentResult.mk false None (Some (message_or "Payment failed" e))
         | Returns _ =>
             if bool_decide (0 <= PaymentParams.amountLamports params < 2 ^ 64) then
               match latest, submitted with
               | Returns _, Returns txHash => PaymentResult.mk true (Some txHash) None
               | Throws e, _
               | Returns _, Throws e =>
                   PaymentResult.mk false None (Some (message_or "Payment failed" e))
               end
             else
               PaymentResult.mk false None
                 (Some (message_or "Payment failed"
                          (transfer_RangeError (PaymentParams.amountLamports params))))
         end
    /\ (is_Some (PaymentResult.txHash result) <-> PaymentResult.error result = None)
    /\ (is_Some (PaymentResult.error result) <-> PaymentResult.txHash result = None)
    /\ (PaymentResult.success result = true <-> is_Some (PaymentResult.txHash result)).
Proof.
  unfold sendPayment, try_catch, bind. rewrite createPaymentTransaction_run, <- u64_decide.
  destruct (PublicKey_new (PaymentParams.recipientAddress params)) as [toPubkey | e];
    [destruct (u64 (PaymentParams.amountLamports params));
       [destruct latest as [blockhash | e]; [destruct submitted as [txHash | e] |] |] |];
    simpl; do 2 eexists; (split; [reflexivity |]); (split; [reflexivity |]); simpl;
    repeat split; intros; try discriminate; try (eexists; reflexivity);
    try match goal with H : is_Some None |- _ => destruct H; discriminate end.
Qed.

End TransactionFacts.

Lemma createPaymentTransaction_two_instructions_witness :
  PublicKey_example "11111111111111111111111111111111"
  = Returns "11111111111111111111111111111111"
  /\ PublicKey_example "invalid-address" = Throws (Error "Non-base58 character")
  /\ createPaymentTransaction PublicKey_example transfer_RangeError_example wallet_example
       "4vJ9JU1bJJE96FWSJKvHsmmFADCg4gpZQff4P3bkLKi" params_example
       (Returns "EkSnNWid2cvwEVnVx9aBqawnmiCNiDgp3gUdkDPTKN1N") chain_example
     = (Returns
          {| instructions :=
               [ Transfer "4vJ9JU1bJJE96FWSJKvHsmmFADCg4gpZQff4P3bkLKi"
                   "11111111111111111111111111111111" 1000000000;
                 Memo "payment-ref-123" ["4vJ9JU1bJJE96FWSJKvHsmmFADCg4gpZQff4P3bkLKi"] ];
             recentBlockhash := Some "EkSnNWid2cvwEVnVx9aBqawnmiCNiDgp3gUdkDPTKN1N";
             feePayer := Some "4vJ9JU1bJJE96FWSJKvHsmmFADCg4gpZQff4P3bkLKi" |},
        {| time := 1767225600000;
           queries := [("https://api.mainnet-beta.solana.com", getLatestBlockhash)] |}).
Proof.
  split; [reflexivity | split; [reflexivity |]].
  apply (createPaymentTransaction_two_instructions (Keypair := string) PublicKey_example
           transfer_RangeError_example
           wallet_example "4vJ9JU1bJJE96FWSJKvHsmmFADCg4gpZQff4P3bkLKi"
           "11111111111111111111111111111111" params_example
           (PaymentParams.mk "invalid-address" 1000000000 "test")
           (Error "Non-base58 character")
           (Returns "EkSnNWid2cvwEVnVx9aBqawnmiCNiDgp3gUdkDPTKN1N") chain_example);
    [reflexivity | simpl; lia | reflexivity].
Defined.

(** C7, as the specification words it, fails on two inputs with a valid
    recipient address.  With an amount of -1 lamports no transaction is
    returned, whatever the chain answers: the transfer instruction cannot
    be built, and the call throws before the blockhash query.  With an
    amount that can be encoded and a chain that does not answer the
    blockhash query, no transaction is returned either. *)
Lemma createPaymentTransaction_fails_with_a_valid_address :
  ~ (forall (self : SestraWallet) (payer toPubkey : string) (params : PaymentParams.t)
            (blockhash : string) (chain : Chain string string),
        PublicKey_example (PaymentParams.recipientAddress params) = Returns toPubkey ->
        exists transaction chain',
          createPaymentTransaction PublicKey_example transfer_RangeError_example
            self payer params (Returns blockhash) chain
          = (Returns transaction, chain')
          /\ instructions transaction
             = [ Transfer payer toPubkey (PaymentParams.amountLamports params);
                 Memo (PaymentParams.memo params) [payer] ])
  /\ ~ (forall (self : SestraWallet) (payer toPubkey : string) (params : PaymentParams.t)
               (latest : Outcome string) (chain : Chain string string),
           PublicKey_example (PaymentParams.recipientAddress params) = Returns toPubkey ->
           0 <= PaymentParams.amountLamports params < 2 ^ 64 ->
           exists transaction chain',
             createPaymentTransaction PublicKey_example transfer_RangeError_example
               self payer params latest chain
             = (Returns transaction, chain')
             /\ instructions transaction
                = [ Transfer payer toPubkey (PaymentParams.amountLamports params);
                    Memo (PaymentParams.memo params) [payer] ])
  /\ createPaymentTransaction PublicKey_example transfer_RangeError_example wallet_example
       "4vJ9JU1bJJE96FWSJKvHsmmFADCg4gpZQff4P3bkLKi" negative_params_example
       (Returns "EkSnNWid2cvwEVnVx9aBqawnmiCNiDgp3gUdkDPTKN1N") chain_example
     = (Throws (transfer_RangeError_example (-1)), chain_example).
Proof.
  split; [| split].
  - intros Hclaim.
    destruct (Hclaim wallet_example "4vJ9JU1bJJE96FWSJKvHsmmFADCg4gpZQff4P3bkLKi"
                "11111111111111111111111111111111" negative_params_example
                "EkSnNWid2cvwEVnVx9aBqawnmiCNiDgp3gUdkDPTKN1N" chain_example eq_refl)
      as (transaction & chain' & Hrun & _).
    discriminate Hrun.
  - intros Hclaim.
    destruct (Hclaim wallet_example "4vJ9JU1bJJE96FWSJKvHsmmFADCg4gpZQff4P3bkLKi"
                "11111111111111111111111111111111" params_example
                (Throws (Error "failed to get recent blockhash: fetch failed")) chain_example
                eq_refl ltac:(simpl; lia))
      as (transaction & chain' & Hrun & _).
    discriminate Hrun.
  - reflexivity.
Qed.

(** [x < timeout] between whole numbers of milliseconds. *)
Lemma below_milliseconds (x timeout : Z) :
  below x (milliseconds timeout) = (x <? timeout)%Z.
Proof.
  unfold below, milliseconds, Qle_bool, inject_Z. simpl. rewrite !Z.mul_1_r.
  symmetry. apply Z.ltb_antisym.
Qed.



(** The test of the loop, read off the status. *)
Lemma is_confirmed_reports (value : option SignatureStatus) :
  is_confirmed value = true <-> reports_confirmation value.
Proof.
  unfold reports_confirmation. split.
  - destruct value as [[[[| |] |]] |]; simpl; try discriminate; intros _;
      eexists; (split; [reflexivity |]); simpl; auto.
  - intros (status & -> & [Hstatus | Hstatus]); simpl; rewrite Hstatus; reflexivity.
Qed.

Lemma is_confirmed_false (value : option SignatureStatus) :
  is_confirmed value = false <-> ~ reports_confirmation value.
Proof.
  rewrite <- is_confirmed_reports. destruct (is_confirmed value); split; intros H;
    try reflexivity; try discriminate; congruence.
Qed.

Lemma elapsed_nonneg (rounds : nat -> Round) (k : nat) : 0 <= elapsed rounds k.
Proof. induction k as [| k IH]; simpl; lia. Qed.

Section ConfirmationFacts.

Context {PublicKey Keypair : Type}.
Variables (self : SestraWallet) (txHash : string) (start : Z) (timeout : Number).
Variable rounds : nat -> Round.

(** One turn of the loop. *)
Lemma waitForConfirmation_loop_unroll (fuel i : nat) (chain : Chain PublicKey Keypair) :
  waitForConfirmation_loop (S fuel) self txHash start timeout rounds i chain
  = if below (time chain - start) timeout then
      match answer (rounds i) with
      | Returns value =>
          if is_confirmed value then
            (Returns (Some true), polled self txHash chain (time chain + Z.of_N (latency (rounds i))) 1)
          else
            waitForConfirmation_loop fuel self txHash start timeout rounds (S i)
              (polled self txHash chain
                 (time chain + Z.of_N (latency (rounds i))
                  + (1000 + Z.of_N (late (rounds i)))) 1)
      | Throws e =>
          (Throws e, polled self txHash chain (time chain + Z.of_N (latency (rounds i))) 1)
      end
    else (Returns (Some false), chain).
Proof.
  simpl. unfold sleep, rpc, elapse, Date_now, modify. unfold bind, ret, throw. simpl.
  destruct (below (time chain - start) timeout); [| reflexivity].
  destruct (answer (rounds i)) as [value | e]; [| reflexivity].
  destruct (is_confirmed value); reflexivity.
Qed.

Lemma polled_polled (chain : Chain PublicKey Keypair) (t t' : Z) (n : nat) :
  polled self txHash (polled self txHash chain t 1) t' n = polled self txHash chain t' (S n).
Proof.
  unfold polled. simpl. rewrite <- app_assoc. reflexivity.
Qed.

Lemma polled_0 (chain : Chain PublicKey Keypair) :
  polled self txHash chain (time chain) 0 = chain.
Proof.
  unfold polled. simpl. rewrite app_nil_r. destruct chain; reflexivity.
Qed.


(** A whole number of milliseconds from which on nothing is below the
    timeout. *)
Variable bound : Z.
Hypothesis below_bound : forall x : Z, 0 <= x -> below x timeout = (x <? bound)%Z.

(** The loop, entered at round [i] with at most [n] rounds of time left,
    ends at a round [k] no more than [n] rounds later, having gone through
    every round before [k]. *)
Lemma waitForConfirmation_loop_ends (n : nat) :
  forall (i : nat) (chain : Chain PublicKey Keypair),
    time chain = start + elapsed rounds i ->
    bound - elapsed rounds i <= 1000 * Z.of_nat n ->
    exists (k : nat) (result : Outcome (option bool)) (duration : Z) (polls : nat),
      (i <= k <= i + n)%nat
      /\ Forall (goes_on rounds timeout) (seq i (k - i))
      /\ Ending rounds timeout k result duration polls
      /\ forall extra : nat,
           waitForConfirmation_loop (S n + extra) self txHash start timeout rounds i chain
           = (result, polled self txHash chain (start + duration) (polls - i)).
Proof.
  induction n as [| n IH]; intros i chain Htime Hleft;
    pose proof (elapsed_nonneg rounds i) as Hi;
    assert (below (time chain - start) timeout = (time chain - start <? bound)%Z) as Hbelow
      by (apply below_bound; lia).
  - exists i, (Returns (Some false)), (elapsed rounds i), i.
    assert (below (elapsed rounds i) timeout = false) as Hout
      by (rewrite below_bound by exact Hi; apply Z.ltb_ge; lia).
    split; [lia |]. split; [rewrite Nat.sub_diag; constructor |].
    split; [constructor; exact Hout |].
    intros extra. rewrite Nat.add_succ_l, waitForConfirmation_loop_unroll, Hbelow.
    replace (time chain - start <? bound)%Z with false
      by (symmetry; apply Z.ltb_ge; lia).
    rewrite Nat.sub_diag, <- Htime, polled_0. reflexivity.
  - destruct (Z.ltb_spec (time chain - start) bound) as [Hin | Hout].
    + assert (below (elapsed rounds i) timeout = true) as Hin'
        by (rewrite below_bound by exact Hi; apply Z.ltb_lt; lia).
      destruct (answer (rounds i)) as [value | e] eqn:Hanswer;
        [destruct (is_confirmed value) eqn:Hconfirmed |].
      * exists i, (Returns (Some true)),
          (elapsed rounds i + Z.of_N (latency (rounds i))), (S i).
        split; [lia |]. split; [rewrite Nat.sub_diag; constructor |].
        split; [apply (status_seen _ _ _ value); auto; apply is_confirmed_reports; auto |].
        intros extra.
        rewrite Nat.add_succ_l, waitForConfirmation_loop_unroll, Hbelow, Hanswer, Hconfirmed.
        replace (S i - i)%nat with 1%nat by lia.
        rewrite Htime, Z.add_assoc. reflexivity.
      * destruct (IH (S i)
                    (polled self txHash chain
                       (time chain + Z.of_N (latency (rounds i))
                        + (1000 + Z.of_N (late (rounds i)))) 1))
          as (k & result & duration & polls & Hk & Hbefore & Hending & Hrun).
        { simpl. lia. }
        { simpl. lia. }
        exists k, result, duration, polls.
        split; [lia |]. split; [| split; [exact Hending |]].
        -- replace (k - i)%nat with (S (k - S i)) by lia. simpl. constructor.
           ++ split; [exact Hin' |]. exists value. split; [exact Hanswer |].
              apply is_confirmed_false. exact Hconfirmed.
           ++ exact Hbefore.
        -- intros extra.
           rewrite Nat.add_succ_l, waitForConfirmation_loop_unroll, Hbelow, Hanswer, Hconfirmed.
           rewrite Hrun, polled_polled.
           assert (S i <= polls)%nat by (destruct Hending; lia).
           replace (S (polls - S i)) with (polls - i)%nat by lia. reflexivity.
      * exists i, (Throws e), (elapsed rounds i + Z.of_N (latency (rounds i))), (S i).
        split; [lia |]. split; [rewrite Nat.sub_diag; constructor |].
        split; [apply poll_failed; auto |].
        intros extra. rewrite Nat.add_succ_l, waitForConfirmation_loop_unroll, Hbelow, Hanswer.
        replace (S i - i)%nat with 1%nat by lia.
        rewrite Htime, Z.add_assoc. reflexivity.
    + exists i, (Returns (Some false)), (elapsed rounds i), i.
      assert (below (elapsed rounds i) timeout = false) as Hout'
        by (rewrite below_bound by exact Hi; apply Z.ltb_ge; lia).
      split; [lia |]. split; [rewrite Nat.sub_diag; constructor |].
      split; [constructor; exact Hout' |].
      intros extra. rewrite Nat.add_succ_l, waitForConfirmation_loop_unroll, Hbelow.
      rewrite Nat.sub_diag, <- Htime, polled_0. reflexivity.
Qed.

End ConfirmationFacts.

(** Rounds of at least a second each: [timeout / 1000 + 1] of them pass
    the timeout. *)
Lemma rounds_cover_timeout (timeout : Z) :
  timeout <= 1000 * Z.of_nat (S (Z.to_nat (timeout / 1000))).
Proof.
  pose proof (Z.div_mod timeout 1000) as Hdiv.
  pose proof (Z.mod_pos_bound timeout 1000) as Hmod.
  destruct (Z.le_gt_cases 0 (timeout / 1000)) as [Hpos | Hneg].
  - rewrite Nat2Z.inj_succ, Z2Nat.id by exact Hpos. lia.
  - rewrite Nat2Z.inj_succ. lia.
Qed.

(** The wait under a timeout that has a deadline. *)
Lemma waitForConfirmation_run {PublicKey Keypair : Type}
    (self : SestraWallet) (txHash : string) (timeout : Number) (bound : Z)
    (rounds : nat -> Round) (chain : Chain PublicKey Keypair) :
  (forall x : Z, 0 <= x -> below x timeout = (x <? bound)%Z) ->
  exists (k : nat) (result : Outcome (option bool)) (duration : Z) (polls : nat),
    (k <= S (Z.to_nat (bound / 1000)))%nat
    /\ Forall (goes_on rounds timeout) (seq 0 k)
    /\ Ending rounds timeout k result duration polls
    /\ forall extra : nat,
         waitForConfirmation (enough_fuel bound + extra) self txHash timeout rounds chain
         = (result, polled self txHash chain (time chain + duration) polls).
Proof.
  intros Hbound.
  destruct (waitForConfirmation_loop_ends self txHash (time chain) timeout rounds bound
              Hbound (S (Z.to_nat (bound / 1000))) 0 chain)
    as (k & result & duration & polls & Hk & Hbefore & Hending & Hrun).
  { simpl. lia. }
  { simpl elapsed. pose proof (rounds_cover_timeout bound). lia. }
  exists k, result, duration, polls.
  rewrite Nat.sub_0_r in Hbefore.
  split; [lia |]. split; [exact Hbefore |]. split; [exact Hending |].
  intros extra. unfold waitForConfirmation, bind, Date_now, enough_fuel.
  rewrite Hrun, Nat.sub_0_r. reflexivity.
Qed.

(** When every status query resolves and none reports confirmed or
    finalized, the wait returns false, at a loop test where the elapsed
    time is no longer below the timeout. *)
Lemma waitForConfirmation_times_out {PublicKey Keypair : Type}
    (self : SestraWallet) (txHash : string) (timeout : Z) (rounds : nat -> Round)
    (chain : Chain PublicKey Keypair) :
  (forall i, unconfirmed (rounds i)) ->
  exists k : nat,
    timeout <= elapsed rounds k
    /\ Forall (fun i => elapsed rounds i < timeout) (seq 0 k)
    /\ forall extra : nat,
         waitForConfirmation (enough_fuel timeout + extra) self txHash timeout rounds chain
         = (Returns (Some false),
            polled self txHash chain (time chain + elapsed rounds k) k).
Proof.
  intros Hunconfirmed.
  destruct (waitForConfirmation_run self txHash (milliseconds timeout) timeout rounds chain)
    as (k & result & duration & polls & _ & Hbefore & Hending & Hrun).
  { intros x _. apply below_milliseconds. }
  destruct (Hunconfirmed k) as (value' & Hanswer & Hstatus).
  destruct Hending as [Hout | value Hin Hvalue Hconfirmed | e Hin He];
    [| congruence | congruence].
  exists k. rewrite below_milliseconds in Hout. apply Z.ltb_ge in Hout.
  split; [exact Hout |]. split; [| exact Hrun].
  eapply Forall_impl; [exact Hbefore |].
  intros i [Hi _]. rewrite below_milliseconds in Hi. apply Z.ltb_lt. exact Hi.
Qed.




(** ** Further properties of the gateway client *)

Lemma json_content_type_lookup (headers : gmap string string) (name : string) :
  (headers ∪ {[ "Content-Type" := "application/json" ]}) !! name
  = if decide (name = "Content-Type")
    then Some (default "application/json" (headers !! name))
    else headers !! name.
Proof.
  rewrite lookup_union. case_decide as Hname.
  - subst name. rewrite lookup_singleton_eq.
    destruct (headers !! "Content-Type"); reflexivity.
  - rewrite lookup_singleton_ne by congruence.
    destruct (headers !! name); reflexivity.
Qed.

(** X1. The adapter never throws, makes exactly one call of [fetch] to
    the base URL followed by the endpoint, with the caller's method and
    body, and leaves the client and the clock as they are.  The headers it
    sends are the caller's, with [Content-Type: application/json] added
    unless the caller has a [Content-Type] of its own, which then wins. *)
Theorem fetch_sends_one_json_call {T : Type} (endpoint : string)
    (options : RequestInit.t) (reply : FetchReply T) (w : World) :
  exists (response : ApiResponse.t T) (headers : gmap string string),
    fetch endpoint options reply w
    = (Returns response,
       {| this := this w; now := now w;
          sent := sent w
                  ++ [ {| url := template (SestraConfig.baseUrl (SestraClient.config (this w)))
                                 +:+ endpoint;
                          init := RequestInit.mk (RequestInit.method options) (Some headers)
                                    (RequestInit.body options) |} ] |})
    /\ headers !! "Content-Type"
       = Some (default "application/json"
                 (default ∅ (RequestInit.headers options) !! "Content-Type"))
    /\ forall name, name <> "Content-Type" ->
         headers !! name = default ∅ (RequestInit.headers options) !! name.
Proof.
  rewrite fetch_run. do 2 eexists. split; [reflexivity |]. split.
  - rewrite json_content_type_lookup. rewrite decide_True by reflexivity. reflexivity.
  - intros name Hname. rewrite json_content_type_lookup.
    rewrite decide_False by exact Hname. reflexivity.
Qed.

(** X2. What the adapter returns never has both data and an error; it has
    data only for a 2xx response whose body is a document, and then that
    document; and for a non-2xx response whose body is a document it has an
    error message that is not empty: the body's [error] if it has one that
    is not empty, else its [detail] likewise, else "Request failed". *)
Theorem fetch_normalises_replies {T : Type} (endpoint : string)
    (options : RequestInit.t) (reply : FetchReply T) (w : World) :
  exists (response : ApiResponse.t T) (w' : World),
    fetch endpoint options reply w = (Returns response, w')
    /\ (ApiResponse.data response = None \/ ApiResponse.error response = None)
    /\ (forall data, ApiResponse.data response = Some data ->
          exists document,
            reply = FetchResolves true (Returns (Some document))
            /\ data = Parsed.value document)
    /\ (forall document, reply = FetchResolves false (Returns (Some document)) ->
          exists message,
            ApiResponse.error response = Some message
            /\ message <> ""
            /\ message
               = match Parsed.error document, Parsed.detail document with
                 | Some (String a e), _ => String a e
                 | _, Some (String a d) => String a d
                 | _, _ => "Request failed"
                 end).
Proof.
  rewrite fetch_run. do 2 eexists. split; [reflexivity |].
  split; [| split].
  - destruct reply as [e | [|] [[document |] | e]]; simpl; auto.
  - intros data. destruct reply as [e | [|] [[document |] | e]]; simpl; try discriminate.
    intros [= <-]. exists document. auto.
  - intros document ->. simpl. eexists. split; [reflexivity |].
    destruct (Parsed.error document) as [[| a e] |];
      destruct (Parsed.detail document) as [[| b d] |]; simpl; split;
      try discriminate; reflexivity.
Qed.

(** X3. The message a caller of [createPayment], [getPaymentStatus] or
    [cancelPayment] sees.  For a non-2xx response with a document it is the
    adapter's message (the body's [error], its [detail], or "Request
    failed"), never the method's own fallback; the method's fallback is
    what a 2xx response with a null body gives.  In both cases one call was
    made and the client is unchanged. *)
Theorem lifecycle_failure_messages (w : World) (params : CreatePaymentRequest.t)
    (referenceId : string)
    (created : Parsed.t CreatePaymentResponse.t)
    (status : Parsed.t PaymentStatusResponse.t)
    (cancelled : Parsed.t CancelPaymentResponse.t) :
  (exists call,
      createPayment params (FetchResolves false (Returns (Some created))) w
      = (Throws (Error (or_else (Parsed.error created)
                          (or_else (Parsed.detail created) "Request failed"))),
         record call w))
  /\ (exists call,
        getPaymentStatus referenceId (FetchResolves false (Returns (Some status))) w
        = (Throws (Error (or_else (Parsed.error status)
                            (or_else (Parsed.detail status) "Request failed"))),
           record call w))
  /\ (exists call,
        cancelPayment referenceId (FetchResolves false (Returns (Some cancelled))) w
        = (Throws (Error (or_else (Parsed.error cancelled)
                            (or_else (Parsed.detail cancelled) "Request failed"))),
           record call w))
  /\ (exists call,
        createPayment params (FetchResolves true (Returns None)) w
        = (Throws (Error "Failed to create payment"), record call w))
  /\ (exists call,
        getPaymentStatus referenceId (FetchResolves true (Returns None)) w
        = (Throws (Error "Payment not found"), record call w))
  /\ (exists call,
        cancelPayment referenceId (FetchResolves true (Returns None)) w
        = (Throws (Error "Failed to cancel payment"), record call w)).
Proof.
  repeat split; eexists;
    unfold createPayment, getPaymentStatus, cancelPayment, bind, get;
    rewrite fetch_run, data_or_throw_run; simpl;
    repeat f_equal;
    try (destruct (Parsed.error created) as [[| x a] |];
         destruct (Parsed.detail created) as [[| y b] |]; reflexivity);
    try (destruct (Parsed.error status) as [[| x a] |];
         destruct (Parsed.detail status) as [[| y b] |]; reflexivity);
    try (destruct (Parsed.error cancelled) as [[| x a] |];
         destruct (Parsed.detail cancelled) as [[| y b] |]; reflexivity).
Qed.

(** X4. The status and cancel operations make one call each, to the base
    URL, the path prefix the sandbox flag selects, and the reference id as
    it is given: a GET without body for the status, a POST without body
    for the cancellation.  The reference id is not escaped: asking for the
    status of [id/cancel] addresses the URL that cancels [id]. *)
Theorem status_and_cancel_endpoints (w : World) (referenceId : string)
    (status : FetchReply PaymentStatusResponse.t)
    (cancelled : FetchReply CancelPaymentResponse.t) :
  (exists headers,
      (getPaymentStatus referenceId status w).2
      = record {| url := template (SestraConfig.baseUrl (SestraClient.config (this w)))
                         +:+ payments_prefix w +:+ "/" +:+ referenceId;
                  init := RequestInit.mk None headers None |} w)
  /\ (exists headers,
        (cancelPayment referenceId cancelled w).2
        = record {| url := template (SestraConfig.baseUrl (SestraClient.config (this w)))
                           +:+ payments_prefix w +:+ "/" +:+ referenceId +:+ "/cancel";
                    init := RequestInit.mk (Some "POST") headers None |} w)
  /\ url <$> last (sent (getPaymentStatus (referenceId +:+ "/cancel") status w).2)
     = url <$> last (sent (cancelPayment referenceId cancelled w).2).
Proof.
  unfold getPaymentStatus, cancelPayment, bind, get, payments_prefix, sandboxed.
  rewrite !fetch_run, !data_or_throw_run.
  destruct (truthy (SestraConfig.sandbox (SestraClient.config (this w))));
    (split; [| split]);
    try (eexists; destruct (accepted status); reflexivity);
    try (eexists; destruct (accepted cancelled); reflexivity);
    destruct (accepted status), (accepted cancelled); simpl; rewrite !last_snoc; reflexivity.
Qed.

(** A string of letters, digits and [*-._] is its own form-encoding. *)
Lemma form_urlencode_unreserved (s : string) :
  forallb form_unreserved (String.list_ascii_of_string s) = true ->
  form_urlencode s = s.
Proof.
  induction s as [| c s IH]; [reflexivity |].
  cbn [String.list_ascii_of_string forallb form_urlencode].
  intros [Hc Hs]%andb_true_iff. unfold form_urlencode_byte.
  rewrite Hc, (IH Hs). reflexivity.
Qed.

Lemma pretty_N_char_unreserved (x : N) : form_unreserved (pretty_N_char x) = true.
Proof.
  destruct x as [| p]; [reflexivity |].
  do 4 (destruct p as [p | p |]; try reflexivity).
Qed.

Lemma pretty_N_go_unreserved (x : N) :
  forall s : string,
    forallb form_unreserved (String.list_ascii_of_string s) = true ->
    forallb form_unreserved (String.list_ascii_of_string (pretty_N_go x s)) = true.
Proof.
  induction (N.lt_wf_0 x) as [x _ IH]. intros s Hs.
  destruct (decide (x = 0%N)) as [-> | Hx].
  - rewrite pretty_N_go_0. exact Hs.
  - rewrite pretty_N_go_step by lia. apply IH.
    + apply N.div_lt; lia.
    + cbn [String.list_ascii_of_string forallb].
      rewrite pretty_N_char_unreserved. exact Hs.
Qed.

(** The decimal digits of a whole number, with their sign, are their own
    form-encoding. *)
Lemma form_urlencode_pretty (n : Z) : form_urlencode (pretty n) = pretty n.
Proof.
  apply form_urlencode_unreserved.
  assert (forall x : N, forallb form_unreserved
                          (String.list_ascii_of_string (pretty x)) = true) as Hdigits.
  { intros x. unfold pretty, pretty_N. case_decide; [reflexivity |].
    apply pretty_N_go_unreserved. reflexivity. }
  destruct n as [| x | x]; [reflexivity | apply Hdigits |].
  change (pretty (Z.neg x)) with ("-" +:+ pretty (N.pos x)).
  cbn [String.append String.list_ascii_of_string forallb].
  apply andb_true_iff. split; [reflexivity | apply Hdigits].
Qed.

Lemma Number_toString_safe (Number_toString_large : Z -> string) (n : Z) :
  - Number_MAX_SAFE_INTEGER <= n <= Number_MAX_SAFE_INTEGER ->
  Number_toString Number_toString_large n = pretty n.
Proof.
  intros Hsafe. unfold Number_toString.
  destruct (Z.leb_spec (Z.abs n) Number_MAX_SAFE_INTEGER); [reflexivity | lia].
Qed.

(** X5. [listPayments] makes one call, a GET without body, to the base
    URL, the path prefix the sandbox flag selects, [?] and a query string:
    the filters as [name=value] joined by [&], in the order status, limit,
    offset, the values form-encoded.  For limits and offsets within the
    safe integers the values are the decimal digits, as they are.  A limit
    or an offset of 0 is left out like one that was not given; with no
    filter the URL ends in [?]. *)
Theorem listPayments_query (Number_toString_large : Z -> string) (w : World)
    (options : ListPaymentsOptions.t) (reply : FetchReply (list PaymentStatusResponse.t)) :
  (exists headers,
      (listPayments Number_toString_large options reply w).2
      = record {| url := template (SestraConfig.baseUrl (SestraClient.config (this w)))
                         +:+ payments_prefix w +:+ "?"
                         +:+ query_string form_urlencode
                               (sent_filters (Number_toString Number_toString_large) options);
                  init := RequestInit.mk None headers None |} w)
  /\ (safe (ListPaymentsOptions.limit options) ->
      safe (ListPaymentsOptions.offset options) ->
      query_string form_urlencode
        (sent_filters (Number_toString Number_toString_large) options)
      = query_string id (sent_filters pretty options))
  /\ sent_filters (Number_toString Number_toString_large)
       (ListPaymentsOptions.mk (ListPaymentsOptions.status options) (Some 0) (Some 0))
     = sent_filters (Number_toString Number_toString_large)
         (ListPaymentsOptions.mk (ListPaymentsOptions.status options) None None)
  /\ query_string form_urlencode
       (sent_filters (Number_toString Number_toString_large) ListPaymentsOptions.empty)
     = "".
Proof.
  split; [| split; [| split; [destruct (ListPaymentsOptions.status options) |]; reflexivity]].
  - unfold listPayments, bind, get, payments_prefix, sandboxed, sent_filters, query_string.
    rewrite fetch_run. eexists.
    destruct options as [status limit offset]. simpl.
    destruct (truthy (SestraConfig.sandbox (SestraClient.config (this w))));
      destruct status as [[] |]; destruct limit as [limit |]; destruct offset as [offset |];
      unfold truthy, truthy_number; simpl;
      try destruct (limit =? 0)%Z; try destruct (offset =? 0)%Z; reflexivity.
  - destruct options as [status limit offset]. unfold sent_filters, query_string. simpl.
    intros Hlimit Hoffset.
    destruct status as [[] |]; destruct limit as [limit |]; destruct offset as [offset |];
      simpl in Hlimit, Hoffset;
      rewrite ?(Number_toString_safe _ limit Hlimit), ?(Number_toString_safe _ offset Hoffset);
      try destruct (limit =? 0)%Z; try destruct (offset =? 0)%Z; simpl;
      rewrite ?form_urlencode_pretty; reflexivity.
Qed.

(** The URLs of [listPayments] for a status, a limit and an offset, and
    for a limit of 10^21. *)
Example listPayments_urls :
  url <$> last (sent (listPayments Number_toString_large_example
                        (ListPaymentsOptions.mk (Some pending) (Some 10) (Some 20))
                        (FetchResolves true (Returns None))
                        (world_example SestraConfig.empty)).2)
  = Some "https://api.sestralabs.xyz/api/v1/payments?status=pending&limit=10&offset=20"
  /\ url <$> last (sent (listPayments Number_toString_large_example
                           (ListPaymentsOptions.mk None (Some (10 ^ 21)) None)
                           (FetchResolves true (Returns None))
                           (world_example SestraConfig.empty)).2)
     = Some "https://api.sestralabs.xyz/api/v1/payments?limit=1e%2B21".
Proof. split; vm_compute; reflexivity. Qed.

Lemma verifyPayment_run (referenceId txHash : string)
    (reply : FetchReply VerifyPaymentResponse.t) (w : World) :
  sandboxed w = false ->
  verifyPayment referenceId txHash reply w
  = match accepted reply with
    | Some data =>
        (Returns data,
         {| this := SestraClient.mk (SestraClient.config (this w))
                      (Some (VerifyPaymentResponse.token data))
                      (Some (verified_session data));
            now := now w;
            sent := sent w ++ [verify_call w referenceId txHash] |})
    | None =>
        (Throws (Error (or_else (ApiResponse.error (adapter_result reply))
                          "Payment verification failed")),
         record (verify_call w referenceId txHash) w)
    end.
Proof.
  unfold sandboxed. intros Hproduction.
  unfold verifyPayment, bind, get. rewrite Hproduction. js_step.
  rewrite fetch_run, data_or_throw_run.
  destruct (accepted reply) as [data |]; reflexivity.
Qed.

(** X6. On a client that is not in sandbox mode, [verifyPayment] makes one
    POST to [/api/v1/payments/{id}/verify] with the body [{tx_hash}].  For a
    2xx response with a document it returns the document and replaces the
    stored session and token by those of the document, whatever the
    document's [success] flag and whatever session was stored; for every
    other reply it throws and the client is as before. *)
Theorem verifyPayment_stores_the_session (w : World) (referenceId txHash : string)
    (reply : FetchReply VerifyPaymentResponse.t) :
  sandboxed w = false ->
  (forall document,
      reply = FetchResolves true (Returns (Some document)) ->
      verifyPayment referenceId txHash reply w
      = (Returns (Parsed.value document),
         {| this := SestraClient.mk (SestraClient.config (this w))
                      (Some (VerifyPaymentResponse.token (Parsed.value document)))
                      (Some (Session.mk
                               (VerifyPaymentResponse.token (Parsed.value document))
                               (VerifyPaymentResponse.reference_id (Parsed.value document))
                               (VerifyPaymentResponse.expires_at (Parsed.value document))
                               (VerifyPaymentResponse.calls_remaining (Parsed.value document))));
            now := now w;
            sent := sent w ++ [verify_call w referenceId txHash] |}))
  /\ ((forall document, reply <> FetchResolves true (Returns (Some document))) ->
      exists e,
        verifyPayment referenceId txHash reply w
        = (Throws e, record (verify_call w referenceId txHash) w)).
Proof.
  intros Hproduction. rewrite (verifyPayment_run _ _ _ _ Hproduction). split.
  - intros document ->. reflexivity.
  - intros Hother.
    destruct reply as [e | [|] [[document |] | e]]; simpl; try (eexists; reflexivity).
    destruct (Hother document). reflexivity.
Qed.

Lemma verifyPayment_stores_the_session_witness :
  sandboxed (world_example SestraConfig.empty) = false
  /\ SestraClient.currentSession
       (this (verifyPayment "ref-123" "tx-hash-123"
                (FetchResolves true (Returns (Some (Parsed.plain verification_example))))
                (world_example SestraConfig.empty)).2)
     = Some (Session.mk "session-token-xyz" "ref-123" "2030-01-01T00:00:00.000Z" 100).
Proof.
  split; [reflexivity |].
  rewrite (proj1 (verifyPayment_stores_the_session (world_example SestraConfig.empty)
                    "ref-123" "tx-hash-123"
                    (FetchResolves true (Returns (Some (Parsed.plain verification_example))))
                    eq_refl) (Parsed.plain verification_example) eq_refl).
  reflexivity.
Defined.

Section SessionLifecycle.

Variable Date_parse : string -> Date.

(** X7. The session is one slot.  [getSession] returns the session last
    set; setting a session replaces the earlier one entirely; after
    [clearSession] there is no session, [hasActiveSession] is false and
    [request] throws its no-session error without sending anything.  None
    of the three touches the configuration, the clock or the network. *)
Theorem session_slot {T} `{Truthy T} (w : World) (first second : Session.t)
    (endpoint : string) (options : RequestInit.t) (reply : FetchReply T) :
  (getSession (setSession second w).2) = (Returns (Some second), (setSession second w).2)
  /\ (setSession second (setSession first w).2).2 = (setSession second w).2
  /\ (setSession second (clearSession w).2).2 = (setSession second w).2
  /\ getSession (clearSession (setSession first w).2).2
     = (Returns None, (clearSession w).2)
  /\ hasActiveSession Date_parse (clearSession (setSession first w).2).2
     = (Returns false, (clearSession w).2)
  /\ request Date_parse endpoint options reply (clearSession (setSession first w).2).2
     = (Throws (Error "No active session. Call verifyPayment() or simulatePayment() first."),
        (clearSession w).2)
  /\ (clearSession w).2
     = {| this := SestraClient.mk (SestraClient.config (this w)) None None;
          now := now w; sent := sent w |}
  /\ (setSession second w).2
     = {| this := SestraClient.mk (SestraClient.config (this w))
                    (Some (Session.token second)) (Some second);
          now := now w; sent := sent w |}.
Proof.
  repeat split; reflexivity.
Qed.

(** X8. A session whose token is the empty string counts as no session:
    [request] throws its no-session error and sends nothing, even while
    [hasActiveSession] is true. *)
Theorem request_refuses_an_empty_token {T} `{Truthy T} (w : World) (session : Session.t)
    (endpoint : string) (options : RequestInit.t) (reply : FetchReply T) :
  Session.token session = "" ->
  request Date_parse endpoint options reply (setSession session w).2
  = (Throws (Error "No active session. Call verifyPayment() or simulatePayment() first."),
     (setSession session w).2).
Proof.
  intros Hempty. rewrite request_run. simpl. rewrite Hempty. reflexivity.
Qed.

(** X9. [request] calls the network exactly when the session token is set
    and not empty and [hasActiveSession] is true, and then once; it never
    changes the configuration, the token or the clock. *)
Theorem request_calls_the_network_iff_live {T} `{Truthy T} (w : World) (endpoint : string)
    (options : RequestInit.t) (reply : FetchReply T) :
  exists (active : bool) (call : HttpCall),
    hasActiveSession Date_parse w = (Returns active, w)
    /\ sent (request Date_parse endpoint options reply w).2
       = (if truthy (SestraClient.sessionToken (this w)) && active
          then (sent w ++ [call])%list else sent w)
    /\ SestraClient.config (this (request Date_parse endpoint options reply w).2)
       = SestraClient.config (this w)
    /\ SestraClient.sessionToken (this (request Date_parse endpoint options reply w).2)
       = SestraClient.sessionToken (this w)
    /\ now (request Date_parse endpoint options reply w).2 = now w.
Proof.
  rewrite hasActiveSession_run, request_run. fold (live Date_parse w).
  exists (live Date_parse w),
    (adapter_call w endpoint
       (with_session_token (default "" (SestraClient.sessionToken (this w))) options)).
  split; [reflexivity |].
  destruct (SestraClient.sessionToken (this w)) as [sessionToken |] eqn:Htoken;
    [| repeat split; auto].
  unfold truthy at 2, truthy_option.
  destruct (truthy sessionToken); [| simpl; rewrite Htoken; repeat split; reflexivity].
  destruct (live Date_parse w); [| simpl; rewrite Htoken; repeat split; reflexivity].
  simpl. destruct (accepted reply); simpl; rewrite ?Htoken; repeat split; reflexivity.
Qed.

(** X10. The headers of a protected call.  [X-Session-Token] is the
    client's session token, also when the caller passes a header of that
    name; [Content-Type] is the caller's if it passes one and
    [application/json] otherwise; every other header is the caller's. *)
Theorem request_headers {T} `{Truthy T} (w : World) (sessionToken endpoint : string)
    (options : RequestInit.t) (reply : FetchReply T) :
  SestraClient.sessionToken (this w) = Some sessionToken ->
  truthy sessionToken = true ->
  live Date_parse w = true ->
  exists (call : HttpCall) (headers : gmap string string),
    sent (request Date_parse endpoint options reply w).2 = (sent w ++ [call])%list
    /\ RequestInit.headers (init call) = Some headers
    /\ headers !! "X-Session-Token" = Some sessionToken
    /\ headers !! "Content-Type"
       = Some (default "application/json"
                 (default ∅ (RequestInit.headers options) !! "Content-Type"))
    /\ (forall name, name <> "X-Session-Token" -> name <> "Content-Type" ->
          headers !! name = default ∅ (RequestInit.headers options) !! name).
Proof.
  intros Htoken Htruthy Hlive. rewrite request_run, Htoken, Htruthy, Hlive. js_step.
  do 2 eexists. split; [destruct (accepted reply); reflexivity |].
  split; [reflexivity |]. simpl. split; [| split].
  - rewrite json_content_type_lookup, decide_False by discriminate.
    apply lookup_insert_eq.
  - rewrite json_content_type_lookup, decide_True by reflexivity.
    rewrite lookup_insert_ne by discriminate. reflexivity.
  - intros name Hsession Hcontent.
    rewrite json_content_type_lookup, decide_False by exact Hcontent.
    apply lookup_insert_ne. congruence.
Qed.

End SessionLifecycle.

Lemma request_refuses_an_empty_token_witness :
  hasActiveSession Date_parse_example
    (setSession tokenless_session_example (world_example SestraConfig.empty)).2
  = (Returns true, (setSession tokenless_session_example (world_example SestraConfig.empty)).2)
  /\ request Date_parse_example "/api/test" RequestInit.empty protected_reply_example
       (setSession tokenless_session_example (world_example SestraConfig.empty)).2
     = (Throws (Error "No active session. Call verifyPayment() or simulatePayment() first."),
        (setSession tokenless_session_example (world_example SestraConfig.empty)).2).
Proof.
  split; [reflexivity |].
  apply (request_refuses_an_empty_token Date_parse_example
           (world_example SestraConfig.empty) tokenless_session_example).
  reflexivity.
Defined.

Lemma request_headers_witness :
  exists (call : HttpCall) (headers : gmap string string),
    sent (request Date_parse_example "/api/test" options_example protected_reply_example
            two_calls_world_example).2
    = (sent two_calls_world_example ++ [call])%list
    /\ RequestInit.headers (init call) = Some headers
    /\ headers !! "X-Session-Token" = Some "test-token"
    /\ headers !! "Accept" = Some "text/plain".
Proof.
  destruct (request_headers Date_parse_example two_calls_world_example "test-token"
              "/api/test" options_example protected_reply_example
              eq_refl eq_refl eq_refl)
    as (call & headers & Hsent & Hheaders & Hsession & _ & Hother).
  exists call, headers. split; [exact Hsent |]. split; [exact Hheaders |].
  split; [exact Hsession |].
  rewrite Hother by discriminate. reflexivity.
Defined.

Section Flows.

Variable Date_parse : string -> Date.

(** X11. A successful simulation whose response has a token but no
    [calls_remaining] stores a session with 0 calls: from then on
    [hasActiveSession] is false at every instant and [request] throws its
    session-expired error without sending anything. *)
Theorem simulatePayment_without_calls_grants_nothing {T} `{Truthy T}
    (w : World) (referenceId : string) (options : SimulatePaymentRequest.t)
    (document : Parsed.t SimulatePaymentResponse.t) (token endpoint : string)
    (protected : RequestInit.t) (reply : FetchReply T) (t : Z) :
  sandboxed w = true ->
  SimulatePaymentResponse.success (Parsed.value document) = true ->
  SimulatePaymentResponse.token (Parsed.value document) = Some token ->
  token <> "" ->
  SimulatePaymentResponse.calls_remaining (Parsed.value document) = None ->
  Session.calls_remaining
  <$> SestraClient.currentSession
        (this (simulatePayment referenceId options
                 (FetchResolves true (Returns (Some document))) w).2)
  = Some 0
  /\ hasActiveSession Date_parse
       (set_now t (simulatePayment referenceId options
                     (FetchResolves true (Returns (Some document))) w).2)
     = (Returns false,
        set_now t (simulatePayment referenceId options
                     (FetchResolves true (Returns (Some document))) w).2)
  /\ request Date_parse endpoint protected reply
       (set_now t (simulatePayment referenceId options
                     (FetchResolves true (Returns (Some document))) w).2)
     = (Throws (Error "Session expired or no calls remaining."),
        set_now t (simulatePayment referenceId options
                     (FetchResolves true (Returns (Some document))) w).2).
Proof.
  intros Hsandbox Hsuccess Htoken Hnonempty Hcalls.
  rewrite (simulatePayment_run _ _ _ _ Hsandbox). simpl accepted. cbv iota.
  unfold granted. rewrite Htoken, Hsuccess, Hcalls.
  destruct token as [| a token]; [congruence |]. simpl andb. cbv iota.
  split; [reflexivity |]. split.
  - rewrite hasActiveSession_run. simpl. rewrite andb_false_r. reflexivity.
  - rewrite request_run. simpl. unfold live. simpl. rewrite andb_false_r. reflexivity.
Qed.

(** X12. The payment flow.  After a verification that was answered by a
    2xx document with a token that is not empty, at any later instant at
    which the document's expiry is still ahead and its calls are above 0, a
    protected request that is answered with data returns that data, sends
    the document's token in [X-Session-Token], and leaves the session with
    one call fewer than the document granted. *)
Theorem verify_then_request {T} `{Truthy T} (w : World) (referenceId txHash : string)
    (document : Parsed.t VerifyPaymentResponse.t) (endpoint : string)
    (options : RequestInit.t) (reply : FetchReply T) (data : T) (t : Z) :
  sandboxed w = false ->
  VerifyPaymentResponse.token (Parsed.value document) <> "" ->
  expires_after Date_parse t (verified_session (Parsed.value document)) ->
  0 < VerifyPaymentResponse.calls_remaining (Parsed.value document) ->
  accepted reply = Some data ->
  exists (call : HttpCall) (headers : gmap string string),
    request Date_parse endpoint options reply
      (set_now t (verifyPayment referenceId txHash
                    (FetchResolves true (Returns (Some document))) w).2)
    = (Returns data,
       {| this := SestraClient.mk (SestraClient.config (this w))
                    (Some (VerifyPaymentResponse.token (Parsed.value document)))
                    (Some (decrement (verified_session (Parsed.value document))));
          now := t;
          sent := sent w ++ [verify_call w referenceId txHash; call] |})
    /\ url call
       = template (SestraConfig.baseUrl (SestraClient.config (this w))) +:+ endpoint
    /\ RequestInit.headers (init call) = Some headers
    /\ headers !! "X-Session-Token"
       = Some (VerifyPaymentResponse.token (Parsed.value document)).
Proof.
  intros Hproduction Hnonempty Hfuture Hcalls Haccepted.
  rewrite (verifyPayment_run _ _ _ _ Hproduction). simpl accepted. cbv iota. simpl snd.
  rewrite request_run. simpl SestraClient.sessionToken.
  destruct (VerifyPaymentResponse.token (Parsed.value document)) as [| a token] eqn:Htoken;
    [congruence |].
  simpl truthy. js_step.
  assert (Hlive : live Date_parse
                    (set_now t
                       {| this := SestraClient.mk (SestraClient.config (this w))
                                    (Some (String a token))
                                    (Some (verified_session (Parsed.value document)));
                          now := now w;
                          sent := sent w ++ [verify_call w referenceId txHash] |})
                  = true).
  { unfold live. simpl. apply andb_true_iff. split.
    - exact (proj2 (Date_gt_expires_after Date_parse
                       (verified_session (Parsed.value document)) t) Hfuture).
    - apply Z.ltb_lt. exact Hcalls. }
  rewrite Hlive, Haccepted. js_step.
  do 2 eexists. split.
  { unfold set_this, record, consume. simpl. rewrite <- app_assoc. reflexivity. }
  split; [reflexivity |]. split; [reflexivity |].
  simpl. rewrite json_content_type_lookup, decide_False by discriminate.
  apply lookup_insert_eq.
Qed.

End Flows.

Lemma simulatePayment_without_calls_grants_nothing_witness :
  sandboxed sandbox_world_example = true
  /\ hasActiveSession Date_parse_example
       (set_now 1767225600001
          (simulatePayment "ref-123" simulatePayment_default
             (FetchResolves true (Returns (Some (Parsed.plain bare_simulation_example))))
             sandbox_world_example).2)
     = (Returns false,
        set_now 1767225600001
          (simulatePayment "ref-123" simulatePayment_default
             (FetchResolves true (Returns (Some (Parsed.plain bare_simulation_example))))
             sandbox_world_example).2).
Proof.
  split; [reflexivity |].
  apply (simulatePayment_without_calls_grants_nothing (T := string) Date_parse_example
           sandbox_world_example "ref-123" simulatePayment_default
           (Parsed.plain bare_simulation_example) "tok-1" "/api/test" RequestInit.empty
           protected_reply_example 1767225600001);
    try reflexivity.
  discriminate.
Defined.

Lemma verify_then_request_witness :
  exists (call : HttpCall) (headers : gmap string string),
    request Date_parse_example "/api/v1/protected-resource" RequestInit.empty
      protected_reply_example
      (set_now 1767225660000
         (verifyPayment "ref-123" "tx-hash-123"
            (FetchResolves true (Returns (Some (Parsed.plain verification_example))))
            (world_example SestraConfig.empty)).2)
    = (Returns "protected content",
       {| this := SestraClient.mk
                    (SestraClient.config (this (world_example SestraConfig.empty)))
                    (Some "session-token-xyz")
                    (Some (Session.mk "session-token-xyz" "ref-123"
                             "2030-01-01T00:00:00.000Z" 99));
          now := 1767225660000;
          sent := [verify_call (world_example SestraConfig.empty) "ref-123" "tx-hash-123";
                   call] |})
    /\ headers !! "X-Session-Token" = Some "session-token-xyz".
Proof.
  destruct (verify_then_request Date_parse_example (world_example SestraConfig.empty)
              "ref-123" "tx-hash-123" (Parsed.plain verification_example)
              "/api/v1/protected-resource" RequestInit.empty protected_reply_example
              "protected content" 1767225660000)
    as (call & headers & Hrun & _ & _ & Hsession).
  - reflexivity.
  - discriminate.
  - exists 1893456000000. split; [reflexivity | reflexivity].
  - reflexivity.
  - reflexivity.
  - exists call, headers. split; [exact Hrun | exact Hsession].
Defined.

(** ** Further properties of the wallet helper *)

Section WalletFurther.

Context {PublicKey Keypair : Type}.
Variable PublicKey_new : string -> Outcome PublicKey.
Variable publicKey : Keypair -> PublicKey.
Variable transfer_RangeError : Z -> Exn.

(** X13. With a recipient address the decoder accepts and a resolving
    blockhash query, the transaction built from payment details sends the
    whole [amount_lamports] to [recipient_address], with [reference] as the
    memo, when the amount is an unsigned 64-bit number; for any other
    amount the call throws what the encoder of the transfer throws, before
    the blockhash query.  No other field of the details has a part in it:
    details that agree on these three fields give the same result, so
    nothing is sent to the platform address and the fee split is not
    applied. *)
Theorem createPaymentFromDetails_pays_the_recipient (self : SestraWallet)
    (payer toPubkey : PublicKey) (details other : PaymentDetails.t) (blockhash : string)
    (latest : Outcome string) (chain : Chain PublicKey Keypair) :
  PublicKey_new (PaymentDetails.recipient_address details) = Returns toPubkey ->
  PaymentDetails.recipient_address other = PaymentDetails.recipient_address details ->
  PaymentDetails.amount_lamports other = PaymentDetails.amount_lamports details ->
  PaymentDetails.reference other = PaymentDetails.reference details ->
  createPaymentFromDetails PublicKey_new transfer_RangeError self payer details
    (Returns blockhash) chain
  = (if bool_decide (0 <= PaymentDetails.amount_lamports details < 2 ^ 64) then
       (Returns
          {| instructions :=
               [ Transfer payer toPubkey (PaymentDetails.amount_lamports details);
                 Memo (PaymentDetails.reference details) [payer] ];
             recentBlockhash := Some blockhash;
             feePayer := Some payer |},
        {| time := time chain;
           queries := queries chain ++ [(connection self, getLatestBlockhash)] |})
     else (Throws (transfer_RangeError (PaymentDetails.amount_lamports details)), chain))
  /\ createPaymentFromDetails PublicKey_new transfer_RangeError self payer other latest chain
     = createPaymentFromDetails PublicKey_new transfer_RangeError self payer details
         latest chain.
Proof.
  intros Hvalid Hrecipient Hamount Hreference. unfold createPaymentFromDetails.
  rewrite Hrecipient, Hamount, Hreference. split; [| reflexivity].
  rewrite createPaymentTransaction_run. simpl. rewrite Hvalid, u64_decide. reflexivity.
Qed.

(** X14. The calls [sendPayment] makes, which it never lets throw.  With
    a recipient address the decoder rejects, or with an amount that is not
    an unsigned 64-bit number: none.  With a blockhash query that fails:
    that query alone.  Otherwise the blockhash query and then one call of
    [sendAndConfirmTransaction], with the connection, the transaction as
    built (the two instructions, the answer of the query as its
    [recentBlockhash] and the key of the keypair as its [feePayer]) and the
    keypair as the only signer.  [sendPaymentFromDetails] is [sendPayment]
    on the recipient, the amount and the reference of the details. *)
Theorem sendPayment_queries (self : SestraWallet) (keypair : Keypair)
    (params : PaymentParams.t) (details : PaymentDetails.t)
    (latest submitted : Outcome string) (chain : Chain PublicKey Keypair) :
  (exists result : PaymentResult.t,
      sendPayment PublicKey_new publicKey transfer_RangeError self keypair params
        latest submitted chain
      = (Returns result,
         {| time := time chain;
            queries :=
              queries chain
              ++ match PublicKey_new (PaymentParams.recipientAddress params) with
                 | Throws _ => []
                 | Returns toPubkey =>
                     if bool_decide (0 <= PaymentParams.amountLamports params < 2 ^ 64) then
                       (connection self, getLatestBlockhash)
                       :: match latest with
                          | Throws _ => []
                          | Returns blockhash =>
                              [ (connection self,
                                 sendAndConfirmTransaction
                                   {| instructions :=
                                        [ Transfer (publicKey keypair) toPubkey
                                            (PaymentParams.amountLamports params);
                                          Memo (PaymentParams.memo params)
                                            [publicKey keypair] ];
                                      recentBlockhash := Some blockhash;
                                      feePayer := Some (publicKey keypair) |}
                                   [keypair]) ]
                          end
                     else []
                 end |}))
  /\ sendPaymentFromDetails PublicKey_new publicKey transfer_RangeError self keypair details
       latest submitted chain
     = sendPayment PublicKey_new publicKey transfer_RangeError self keypair
         (PaymentParams.mk (PaymentDetails.recipient_address details)
            (PaymentDetails.amount_lamports details) (PaymentDetails.reference details))
         latest submitted chain.
Proof.
  split; [| reflexivity].
  unfold sendPayment, try_catch, bind. rewrite createPaymentTransaction_run, <- u64_decide.
  destruct (PublicKey_new (PaymentParams.recipientAddress params)) as [toPubkey | e];
    [destruct (u64 (PaymentParams.amountLamports params));
       [destruct latest as [blockhash | e]; [destruct submitted as [txHash | e] |] |] |];
    simpl; eexists; rewrite ?app_nil_r, <- ?app_assoc; simpl;
    try reflexivity; destruct chain; reflexivity.
Qed.

(** X15. [isTransactionConfirmed] never throws and makes exactly one
    status query: it returns true when the query resolves with a status
    that is confirmed or finalized, and false for every other status, for
    no status, and when the query rejects. *)
Theorem isTransactionConfirmed_never_throws (self : SestraWallet) (txHash : string)
    (round : Round) (chain : Chain PublicKey Keypair) :
  isTransactionConfirmed self txHash round chain
  = (Returns
       match answer round with
       | Returns (Some {| confirmationStatus := Some confirmed |})
       | Returns (Some {| confirmationStatus := Some finalized |}) => true
       | _ => false
       end,
     polled self txHash chain (time chain + Z.of_N (latency round)) 1).
Proof.
  unfold isTransactionConfirmed, try_catch, elapse, rpc, modify. unfold bind, ret, throw.
  simpl. destruct (answer round) as [[[[[| |] |]] |] | e]; reflexivity.
Qed.

(** X16. With a timeout that is not positive, [waitForConfirmation]
    returns false at once: no status query is made and no time passes. *)
Theorem waitForConfirmation_without_time (self : SestraWallet) (txHash : string)
    (timeout : Z) (rounds : nat -> Round) (chain : Chain PublicKey Keypair) (fuel : nat) :
  timeout <= 0 ->
  waitForConfirmation (S fuel) self txHash timeout rounds chain
  = (Returns (Some false), chain).
Proof.
  intros Htimeout. unfold waitForConfirmation, bind, Date_now.
  rewrite waitForConfirmation_loop_unroll, below_milliseconds.
  replace (time chain - time chain <? timeout)%Z with false
    by (symmetry; apply Z.ltb_ge; lia).
  reflexivity.
Qed.

(** X17. The wait and the single check side by side, for a positive
    timeout.  When the single check of the first round says true, the wait
    returns true, after the same one query and the same time.  When the
    first status query rejects, the single check says false, but the wait
    throws what the query threw. *)
Theorem waitForConfirmation_and_isTransactionConfirmed (self : SestraWallet)
    (txHash : string) (timeout : Z) (rounds : nat -> Round)
    (chain : Chain PublicKey Keypair) (fuel : nat) :
  0 < timeout ->
  (forall chain',
      isTransactionConfirmed self txHash (rounds 0%nat) chain = (Returns true, chain') ->
      waitForConfirmation (S fuel) self txHash timeout rounds chain
      = (Returns (Some true), chain'))
  /\ (forall e,
        answer (rounds 0%nat) = Throws e ->
        exists chain',
          isTransactionConfirmed self txHash (rounds 0%nat) chain = (Returns false, chain')
          /\ waitForConfirmation (S fuel) self txHash timeout rounds chain
             = (Throws e, chain')).
Proof.
  intros Htimeout. unfold waitForConfirmation, bind, Date_now.
  rewrite waitForConfirmation_loop_unroll, below_milliseconds,
    isTransactionConfirmed_never_throws.
  replace (time chain - time chain <? timeout)%Z with true
    by (symmetry; apply Z.ltb_lt; lia).
  split.
  - intros chain' Hcheck. injection Hcheck as Hstatus <-.
    destruct (answer (rounds 0%nat)) as [[[[[| |] |]] |] | e];
      try discriminate Hstatus; reflexivity.
  - intros e ->. eexists. split; reflexivity.
Qed.

Lemma punctual_elapsed (rounds : nat -> Round) (k : nat) :
  (forall i, punctual (rounds i)) -> elapsed rounds k = 1000 * Z.of_nat k.
Proof.
  intros Hpunctual. induction k as [| k IH]; [reflexivity |].
  simpl elapsed. destruct (Hpunctual k) as [-> ->]. rewrite IH. lia.
Qed.

(** X18. Against a chain that answers at once, fires its timers on time
    and never reports a confirmation, the wait with a positive timeout
    returns false after a whole number [k] of seconds and [k] status
    queries, where [k] seconds is the first multiple of a second that
    reaches the timeout: not before the timeout, and less than a second
    after it. *)
Theorem waitForConfirmation_punctual (self : SestraWallet) (txHash : string)
    (timeout : Z) (rounds : nat -> Round) (chain : Chain PublicKey Keypair) :
  0 < timeout ->
  (forall i, punctual (rounds i)) ->
  (forall i, unconfirmed (rounds i)) ->
  exists k : nat,
    timeout <= 1000 * Z.of_nat k < timeout + 1000
    /\ forall extra : nat,
         waitForConfirmation (enough_fuel timeout + extra) self txHash timeout rounds chain
         = (Returns (Some false),
            polled self txHash chain (time chain + 1000 * Z.of_nat k) k).
Proof.
  intros Htimeout Hpunctual Hunconfirmed.
  destruct (waitForConfirmation_times_out self txHash timeout rounds chain Hunconfirmed)
    as (k & Hout & Hbefore & Hrun).
  rewrite (punctual_elapsed rounds k Hpunctual) in *.
  exists k. split; [| exact Hrun].
  split; [exact Hout |].
  destruct k as [| j]; [lia |].
  rewrite Forall_forall in Hbefore.
  assert (elapsed rounds j < timeout) as Hj by (apply Hbefore, elem_of_seq; lia).
  rewrite (punctual_elapsed rounds j Hpunctual) in Hj. lia.
Qed.

End WalletFurther.

Lemma createPaymentFromDetails_pays_the_recipient_witness :
  instructions
  <$> match (createPaymentFromDetails PublicKey_example transfer_RangeError_example
               wallet_example "4vJ9JU1bJJE96FWSJKvHsmmFADCg4gpZQff4P3bkLKi" details_example
               (Returns "EkSnNWid2cvwEVnVx9aBqawnmiCNiDgp3gUdkDPTKN1N") chain_example).1 with
      | Returns transaction => Some transaction
      | Throws _ => None
      end
  = Some [ Transfer "4vJ9JU1bJJE96FWSJKvHsmmFADCg4gpZQff4P3bkLKi"
             "11111111111111111111111111111111" 1000000000;
           Memo "payment-ref-456" ["4vJ9JU1bJJE96FWSJKvHsmmFADCg4gpZQff4P3bkLKi"] ].
Proof.
  rewrite (proj1 (createPaymentFromDetails_pays_the_recipient (Keypair := string)
                    PublicKey_example transfer_RangeError_example wallet_example
                    "4vJ9JU1bJJE96FWSJKvHsmmFADCg4gpZQff4P3bkLKi"
                    "11111111111111111111111111111111" details_example details_example
                    "EkSnNWid2cvwEVnVx9aBqawnmiCNiDgp3gUdkDPTKN1N"
                    (Returns "EkSnNWid2cvwEVnVx9aBqawnmiCNiDgp3gUdkDPTKN1N") chain_example
                    eq_refl eq_refl eq_refl eq_refl)).
  reflexivity.
Defined.

Lemma waitForConfirmation_without_time_witness :
  waitForConfirmation 1 wallet_example "hash" 0
    (fun _ => {| latency := 0; answer := Returns None; late := 0 |}) chain_example
  = (Returns (Some false), chain_example).
Proof.
  apply (waitForConfirmation_without_time wallet_example "hash" 0
           (fun _ => {| latency := 0; answer := Returns None; late := 0 |})
           chain_example 0).
  lia.
Defined.

Lemma waitForConfirmation_and_isTransactionConfirmed_witness :
  exists chain' : Chain string string,
    isTransactionConfirmed wallet_example "hash"
      {| latency := 120; answer := Throws (Error "fetch failed"); late := 0 |} chain_example
    = (Returns false, chain')
    /\ waitForConfirmation 1 wallet_example "hash" 30000
         (fun _ => {| latency := 120; answer := Throws (Error "fetch failed"); late := 0 |})
         chain_example
       = (Throws (Error "fetch failed"), chain').
Proof.
  apply (proj2 (waitForConfirmation_and_isTransactionConfirmed wallet_example "hash" 30000
                  (fun _ => {| latency := 120; answer := Throws (Error "fetch failed");
                               late := 0 |})
                  chain_example 0 ltac:(lia))
           (Error "fetch failed") eq_refl).
Defined.

Lemma waitForConfirmation_punctual_witness :
  exists k : nat,
    2500 <= 1000 * Z.of_nat k < 2500 + 1000
    /\ forall extra : nat,
         waitForConfirmation (enough_fuel 2500 + extra) wallet_example "hash" 2500
           (fun _ => {| latency := 0; answer := Returns None; late := 0 |}) chain_example
         = (Returns (Some false),
            polled wallet_example "hash" chain_example
              (time chain_example + 1000 * Z.of_nat k) k).
Proof.
  apply (waitForConfirmation_punctual wallet_example "hash" 2500
           (fun _ => {| latency := 0; answer := Returns None; late := 0 |}) chain_example).
  - lia.
  - intros i. split; reflexivity.
  - intros i. exists None. split; [reflexivity |].
    intros (status & Hstatus & _). discriminate Hstatus.
Defined.

(** ** Properties of the error classes *)

(** X19. For errors built by the constructors of the classes below
    [SestraError], with any arguments: each is recognised by
    [isSestraError], and its code is one of the values of [ErrorCodes]; the
    name tells the classes apart; the code does so too, except within the
    session family: [SessionError], [NoSessionError] and
    [SessionExpiredError] all carry SESSION_ERROR, and an error has that
    code exactly when it is an instance of [SessionError]. *)
Theorem built_errors_codes_and_names (e1 e2 : SdkError.t) :
  Built e1 -> Built e2 ->
  isSestraError (SdkInstance e1) = true
  /\ SdkError.code e1 ∈ ErrorCodes.*2
  /\ (SdkError.name e1 = SdkError.name e2 <-> SdkError.prototype e1 = SdkError.prototype e2)
  /\ (instanceof e1 SessionError = true <-> SdkError.code e1 = "SESSION_ERROR")
  /\ (SdkError.code e1 = SdkError.code e2
      <-> SdkError.prototype e1 = SdkError.prototype e2
          \/ (instanceof e1 SessionError = true /\ instanceof e2 SessionError = true)).
Proof.
  intros H1 H2. split; [| split; [| split; [| split]]].
  - destruct H1; reflexivity.
  - destruct H1; simpl;
      repeat first [apply list_elem_of_here | apply list_elem_of_further].
  - destruct H1, H2; simpl; split; intros Heq; try reflexivity; discriminate Heq.
  - destruct H1; simpl; split; intros Heq; try reflexivity; discriminate Heq.
  - destruct H1, H2; simpl; split;
      try (intros _; left; reflexivity);
      try (intros _; right; split; reflexivity);
      try (intros _; reflexivity);
      try (intros Heq; discriminate Heq);
      intros [Heq | [Heq1 Heq2]]; try discriminate Heq; try discriminate Heq1;
      try discriminate Heq2; reflexivity.
Qed.

Lemma built_errors_codes_and_names_witness :
  SdkError.code new_NoSessionError = SdkError.code new_SessionExpiredError
  /\ SdkError.name new_NoSessionError <> SdkError.name new_SessionExpiredError.
Proof.
  destruct (built_errors_codes_and_names new_NoSessionError new_SessionExpiredError
              built_NoSessionError built_SessionExpiredError)
    as (_ & _ & Hname & _ & Hcode).
  split.
  - apply Hcode. right. split; reflexivity.
  - intros Heq. apply Hname in Heq. discriminate Heq.
Defined.

(** X20. Every key of [ErrorCodes] names itself, is the code of an error
    some constructor builds, and the codes are pairwise distinct; values
    that are not instances of the SDK's classes are not recognised by
    [isSestraError], whatever they are. *)
Theorem ErrorCodes_are_used (key value message : string) :
  (key, value) ∈ ErrorCodes ->
  key = value
  /\ (exists e, Built e /\ SdkError.code e = value)
  /\ NoDup ErrorCodes.*2
  /\ isSestraError (OtherError message) = false
  /\ isSestraError OtherValue = false.
Proof.
  intros Hin. split; [| split; [| split; [| split; reflexivity]]].
  - unfold ErrorCodes in Hin.
    repeat (apply elem_of_cons in Hin as [[= -> ->] | Hin]); try reflexivity.
    apply elem_of_nil in Hin. destruct Hin.
  - unfold ErrorCodes in Hin.
    repeat (apply elem_of_cons in Hin as [[= -> ->] | Hin]);
      [ exists (new_PaymentCreationError "" None)
      | exists (new_PaymentVerificationError "" None None)
      | exists (new_PaymentNotFoundError "")
      | exists (new_SessionError "")
      | exists (new_ApiError "" None None None)
      | exists (new_NetworkError "" None)
      | exists (new_SandboxModeError "")
      | exists (new_WalletTransactionError "" None)
      | exists (new_ValidationError "" None)
      | ];
      try (split; [constructor | reflexivity]).
    apply elem_of_nil in Hin. destruct Hin.
  - apply (bool_decide_unpack _). vm_compute. exact I.
Qed.

Lemma ErrorCodes_are_used_witness :
  exists e, Built e /\ SdkError.code e = "NETWORK_ERROR".
Proof.
  apply (ErrorCodes_are_used "NETWORK_ERROR" "NETWORK_ERROR" "").
  unfold ErrorCodes. repeat first [apply list_elem_of_here | apply list_elem_of_further].
Defined.

(** ** Properties of the constructors *)

(** X21. A client as the constructor leaves it has no session, and every
    call it makes through the adapter goes to the [baseUrl] of its
    configuration followed by the endpoint; to [https://api.sestralabs.xyz]
    followed by the endpoint when the configuration has no [baseUrl]; and
    to the text [undefined] followed by the endpoint when the configuration
    has a [baseUrl] that is [undefined], which overrides the default.  The
    other URL options of the configuration have no part in it. *)
Theorem new_SestraClient_base_url {T : Type} (config : SestraConfig.t) (clock : Z)
    (endpoint : string) (options : RequestInit.t) (reply : FetchReply T) :
  getSession {| this := new_SestraClient config; now := clock; sent := [] |}
  = (Returns None, {| this := new_SestraClient config; now := clock; sent := [] |})
  /\ url <$> sent (fetch endpoint options reply
                    {| this := new_SestraClient config; now := clock; sent := [] |}).2
     = [ match SestraConfig.baseUrl config with
         | Some base => base
         | None =>
             if bool_decide ("baseUrl" ∈ SestraConfig.voids config)
             then "undefined"
             else "https://api.sestralabs.xyz"
         end +:+ endpoint ]
  /\ url <$> sent (fetch endpoint options reply
                    {| this := new_SestraClient
                                 (SestraConfig.Build None None (SestraConfig.baseUrl config)
                                    None (SestraConfig.sandbox config) None
                                    (SestraConfig.voids config));
                       now := clock; sent := [] |}).2
     = url <$> sent (fetch endpoint options reply
                       {| this := new_SestraClient config; now := clock; sent := [] |}).2.
Proof.
  rewrite !fetch_run. split; [reflexivity |].
  destruct config as [sestra service base rpc sandbox key voids]. simpl.
  unfold SestraConfig.spread_property. simpl.
  destruct base; [split; reflexivity |].
  destruct (bool_decide ("baseUrl" ∈ voids)); split; reflexivity.
Qed.

(** [new SestraClient({baseUrl: undefined})] calls [undefined/api/v1/payments]. *)
Example createPayment_with_undefined_baseUrl :
  url <$> sent (createPayment (CreatePaymentRequest.mk "policy-1" None)
                  (FetchRejects (Error "Failed to parse URL"))
                  (world_example (SestraConfig.Build None None None None None None
                                    ["baseUrl"]))).2
  = ["undefined/api/v1/payments"].
Proof. reflexivity. Qed.

Lemma prefix_append (p s : string) :
  String.prefix p s = true <-> exists post, s = p +:+ post.
Proof.
  revert s. induction p as [| a p IH]; intros s.
  - destruct s; simpl; (split; [intros _; eexists; reflexivity | reflexivity]).
  - destruct s as [| b s]; simpl.
    + split; [discriminate | intros [post Hpost]; discriminate Hpost].
    + destruct (Ascii.ascii_dec a b) as [<- | Hne].
      * rewrite IH. split.
        -- intros [post ->]. exists post. reflexivity.
        -- intros [post [= ->]]. exists post. reflexivity.
      * split; [discriminate |]. intros [post [= <- _]]. congruence.
Qed.

(** [includes] finds exactly the substrings. *)
Lemma includes_substring (s search : string) :
  includes s search = true <-> exists pre post, s = pre +:+ search +:+ post.
Proof.
  induction s as [| a s IH].
  - cbn [includes]. rewrite orb_false_r, prefix_append. split.
    + intros [post ->]. exists "", post. reflexivity.
    + intros (pre & post & Heq). destruct pre as [| b pre]; [| discriminate Heq].
      exists post. exact Heq.
  - cbn [includes]. rewrite orb_true_iff, prefix_append, IH. split.
    + intros [[post ->] | (pre & post & ->)].
      * exists "", post. reflexivity.
      * exists (String a pre), post. reflexivity.
    + intros (pre & post & Heq). destruct pre as [| b pre].
      * left. exists post. exact Heq.
      * right. injection Heq as <- ->. exists pre, post. reflexivity.
Qed.

(** X22. The constructor of the wallet throws what [new Connection]
    throws for the endpoint, and there is no wallet then.  When the
    connection is made, the wallet keeps it, and its network is fixed by
    the endpoint: devnet exactly when "devnet" occurs somewhere in the
    endpoint, and mainnet-beta for every other endpoint, the default one
    among them. *)
Theorem getNetwork_devnet_iff (Connection_new : string -> Outcome unit)
    (rpcEndpoint : string) :
  match Connection_new rpcEndpoint with
  | Throws e => new_SestraWallet Connection_new rpcEndpoint = Throws e
  | Returns _ =>
      exists self : SestraWallet,
        new_SestraWallet Connection_new rpcEndpoint = Returns self
        /\ connection self = rpcEndpoint
        /\ (getNetwork self = "devnet"
            <-> exists before after, rpcEndpoint = before +:+ "devnet" +:+ after)
        /\ (getNetwork self = "mainnet-beta"
            <-> ~ exists before after, rpcEndpoint = before +:+ "devnet" +:+ after)
  end
  /\ forall self : SestraWallet,
       new_SestraWallet Connection_new SestraWallet_default_rpcEndpoint = Returns self ->
       getNetwork self = "mainnet-beta".
Proof.
  unfold new_SestraWallet. split.
  - destruct (Connection_new rpcEndpoint) as [[] | e]; [| reflexivity].
    eexists. split; [reflexivity |]. split; [reflexivity |].
    rewrite <- includes_substring. unfold getNetwork. simpl.
    destruct (includes rpcEndpoint "devnet"); repeat split; intros; try reflexivity;
      try discriminate; congruence.
  - intros self.
    destruct (Connection_new SestraWallet_default_rpcEndpoint); [| discriminate].
    intros [= <-]. reflexivity.
Qed.

(** [new SestraWallet('devnet')] throws, with the endpoint check of the
    examples. *)
Example new_SestraWallet_without_scheme :
  new_SestraWallet Connection_example "devnet"
  = Throws (Error "Endpoint URL must start with `http:` or `https:`.").
Proof. reflexivity. Qed.
